(** * LoopChamber: the memory scorer and the memory store

    A shallow embedding of [MemoryScorer.score_memory] (both copies:
    [loopchamber_app.py] and the simplified one of [memory_scorer.py]) and
    of [MemoryStore] ([loopchamber_app.py]), with the properties of the
    specification stated and proved over it.

    Conventions.
    - A Python [str] is a [string]; a character is a code point below 256.
    - A Python [float] is modelled by its exact rational value: every
      arithmetic operation computes the exact result in [Q] and rounds it to
      the nearest binary64 value, ties to even ([RNE]).  Integers are the
      rationals of denominator 1.  A float literal such as [0.15] denotes
      [RNE (15 # 100)].
    - The environment of [add_memory] (clock, random generator) is an
      explicit argument. *)

From Stdlib Require Import ZArith QArith Qround Qpower Qminmax Qabs Lia Lqa List Bool.
From Stdlib Require Import Sorting.Permutation Sorting.Sorted.
From Stdlib Require Import Ascii String.
From Stdlib Require Import DecimalString DecimalZ DecimalPos.
Import ListNotations.
Local Open Scope string_scope.

(* ================================================================== *)
(** ** Python strings *)
(* ================================================================== *)

Module PyStr.

(** [str.isspace] on a single character, for code points below 256:
    the ASCII white space TAB..CR, the separators FS..US, the space,
    NEL (0x85) and the no-break space (0xA0). *)
Definition isspace (c : ascii) : bool :=
  let n := N_of_ascii c in
  ((9 <=? n) && (n <=? 13) || (28 <=? n) && (n <=? 32)
   || (n =? 133) || (n =? 160))%N.

(** [str.lower] on a single character, for code points below 256:
    A..Z and the Latin-1 capitals 0xC0..0xDE (except the sign 0xD7) move
    up by 32. *)
Definition lower_char (c : ascii) : ascii :=
  let n := N_of_ascii c in
  if ((65 <=? n) && (n <=? 90)
      || (192 <=? n) && (n <=? 222) && negb (n =? 215))%N
  then ascii_of_N (n + 32) else c.

Fixpoint lower (s : string) : string :=
  match s with
  | EmptyString => EmptyString
  | String c r => String (lower_char c) (lower r)
  end.

(** [s.split()]: the maximal runs of non-space characters, in order.
    [cur] is the run being read, reversed. *)
Fixpoint rev_string (acc s : string) : string :=
  match s with
  | EmptyString => acc
  | String c r => rev_string (String c acc) r
  end.

Definition flush (cur : string) : list string :=
  match cur with
  | EmptyString => []
  | _ => [rev_string EmptyString cur]
  end.

Fixpoint split_from (cur s : string) : list string :=
  match s with
  | EmptyString => flush cur
  | String c r =>
      if isspace c then flush cur ++ split_from EmptyString r
      else split_from (String c cur) r
  end.

Definition split (s : string) : list string := split_from EmptyString s.

(** [sub in s] *)
Fixpoint contains (sub s : string) : bool :=
  prefix sub s ||
  match s with
  | EmptyString => false
  | String _ r => contains sub r
  end.

(** [s.count(c)] for a one-character pattern *)
Fixpoint count_char (c : ascii) (s : string) : nat :=
  match s with
  | EmptyString => 0
  | String d r => (if Ascii.eqb c d then 1 else 0) + count_char c r
  end.

(** Truth value of [set(ws1).intersection(set(ws2))]: some word is in both. *)
Definition share_word (ws1 ws2 : list string) : bool :=
  existsb (fun w => existsb (String.eqb w) ws2) ws1.

(** [l[-5:]] and, in general, the last [n] items of a list. *)
Definition last_n {A} (n : nat) (l : list A) : list A :=
  skipn (List.length l - n) l.

(** [str(z)] / the [{z}] of an f-string, for an integer *)
Definition str_of_int (z : Z) : string := NilZero.string_of_int (Z.to_int z).

End PyStr.

(* ================================================================== *)
(** ** Python floats (binary64), by exact value *)
(* ================================================================== *)

Module PyFloat.

Local Open Scope Q_scope.

Definition float := Q.

Definition pow2 (k : Z) : Q := 2 ^ k.

(** The exponent of the binade of a positive rational:
    [2^l <= q < 2^(l+1)]. *)
Definition floor_log2 (q : Q) : Z :=
  let l := (Z.log2 (Qnum q) - Z.log2 (Zpos (Qden q)))%Z in
  if Qle_bool (pow2 l) q then l else (l - 1)%Z.

(** Nearest integer, ties to the even one. *)
Definition round_half_even (q : Q) : Z :=
  let f := Qfloor q in
  match Qcompare (q - inject_Z f) (1 # 2) with
  | Lt => f
  | Gt => (f + 1)%Z
  | Eq => if Z.even f then f else (f + 1)%Z
  end.

(** Round a positive rational to 53 significant bits.  The exponent range is
    left unbounded: the scorer's non-zero values lie between 2^-7 and 2^63,
    far from the underflow and overflow thresholds of binary64. *)
Definition RNE_pos (q : Q) : Q :=
  let e := (floor_log2 q - 52)%Z in
  Qred (inject_Z (round_half_even (q / pow2 e)) * pow2 e).

Definition RNE (q : Q) : float :=
  match Qcompare q 0 with
  | Eq => 0
  | Gt => RNE_pos q
  | Lt => Qred (- RNE_pos (- q))
  end.

(** A decimal literal [n/d] of the source, e.g. [0.15] is [lit 15 100]. *)
Definition lit (n : Z) (d : positive) : float := RNE (n # d).

(** [float(z)] for an int, as done implicitly by [int * float]. *)
Definition of_int (z : Z) : float := RNE (inject_Z z).

Definition fadd (x y : float) : float := RNE (x + y).
Definition fmul (x y : float) : float := RNE (x * y).

(** [a / b] on two ints (true division): the correctly rounded quotient. *)
Definition truediv (a b : Z) : float := RNE (inject_Z a / inject_Z b).

Definition fltb (x y : float) : bool := negb (Qle_bool y x).
Definition fleb (x y : float) : bool := Qle_bool x y.

(** [min(a, b)] and [max(a, b)] on two arguments: the first one unless the
    second is strictly smaller (larger). *)
Definition pymin (a b : float) : float := if fltb b a then b else a.
Definition pymax (a b : float) : float := if fltb a b then b else a.

(** [round(x, 2)]: the decimal with two places nearest to the exact value of
    [x] (ties to even), converted back to a float. *)
Definition round2 (x : float) : float :=
  RNE (inject_Z (round_half_even (x * 100)) / 100).

End PyFloat.

(* ================================================================== *)
(** ** The scorer's constants and result type *)
(* ================================================================== *)

Module Lexicon.

Import PyStr PyFloat.

(** [self.emotional_lexicons]: a dict, iterated in insertion order. *)
Definition emotional_lexicons : list (string * list string) :=
  [ ("positive",
     ["happy"; "joy"; "glad"; "delight"; "pleased"; "cheerful"; "content";
      "satisfied"; "excited"; "thrilled"; "optimistic"; "enthusiastic";
      "hopeful"; "confident"; "proud"; "love"; "adore"; "enjoy"; "like"]);
    ("negative",
     ["sad"; "unhappy"; "depressed"; "gloomy"; "miserable"; "disappointed";
      "frustrated"; "annoyed"; "angry"; "furious"; "outraged"; "irritated";
      "upset"; "worried"; "anxious"; "afraid"; "fearful"; "scared"]);
    ("neutral",
     ["think"; "consider"; "believe"; "understand"; "know"; "recognize";
      "observe"; "notice"; "perceive"; "feel"; "sense"; "experience"]);
    ("complex",
     ["bittersweet"; "ambivalent"; "conflicted"; "torn"; "mixed feelings";
      "nostalgic"; "melancholy"; "sentimental"; "wistful"; "longing"]) ].

(** [self.contradiction_signals] *)
Definition contradiction_signals : list string :=
  ["but"; "however"; "nevertheless"; "conversely"; "on the other hand";
   "in contrast"; "contrary"; "opposite"; "unlike"; "instead";
   "while"; "whereas"; "yet"; "although"; "despite"; "in spite"].

(** [type_weights] and [tempo_type_weights] of [score_memory] *)
Definition type_weights : list (string * float) :=
  [ ("insight", lit 8 10); ("question", lit 7 10); ("observation", lit 6 10);
    ("event", lit 5 10); ("reflection", lit 7 10) ].

Definition tempo_type_weights : list (string * float) :=
  [ ("insight", lit 7 10); ("question", lit 8 10); ("observation", lit 5 10);
    ("event", lit 4 10); ("reflection", lit 6 10) ].

(** [d.get(k, default)] and [d[k]] on a dict kept as an association list.
    [d[k]] is only used with keys that are present. *)
Fixpoint dict_get {V} (d : list (string * V)) (k : string) (default : V) : V :=
  match d with
  | [] => default
  | (k', v) :: r => if String.eqb k k' then v else dict_get r k default
  end.

(** The loop [for word in words: if word in text: n += 1], from [n = 0]. *)
Definition count_found (words : list string) (text : string) : nat :=
  fold_left (fun n word => if contains word text then S n else n) words 0%nat.

(** [any(signal in text for signal in self.contradiction_signals)] *)
Definition any_signal (text : string) : bool :=
  existsb (fun signal => contains signal text) contradiction_signals.

(** The dict returned by [score_memory]. *)
Record scores := mk_scores {
  pitch : float;
  dissonance : float;
  tempo : float;
  emotion : string
}.

(** What [score_memory] reads of one item of [existing_memories]: the value
    under the key ['content'], [None] when the dict has no such key. *)
Definition history_entry := option string.

(** ====== PITCH ====== (the same in both copies) *)
Definition pitch_of (word_count : nat) (memory_type : string) : float :=
  let length_factor :=
    pymin (lit 1 1) (pymax (lit 1 10) (truediv (Z.of_nat word_count) 100)) in
  let type_factor := dict_get type_weights (lower memory_type) (lit 5 10) in
  fadd (fmul length_factor (lit 4 10)) (fmul type_factor (lit 6 10)).

(** Internal contradiction score (the same in both copies) *)
Definition contradiction_score_of (text : string) : float :=
  let contradiction_score :=
    fold_left (fun acc signal =>
                 if contains signal text then fadd acc (lit 15 100) else acc)
              contradiction_signals 0%Q in
  pymin (lit 8 10) contradiction_score.

(** [emotion_counts] after the counting loop *)
Definition emotion_counts_of (text : string) : list (string * nat) :=
  map (fun '(category, words) => (category, count_found words text))
      emotional_lexicons.

(** The loop "Find dominant emotion": state [(dominant_emotion, max_count)]. *)
Definition find_dominant (emotion_counts : list (string * nat)) : string * nat :=
  fold_left (fun '(dominant_emotion, max_count) '(emotion, count) =>
               if (max_count <? count)%nat then (emotion, count)
               else (dominant_emotion, max_count))
            emotion_counts ("neutral", 0%nat).

End Lexicon.

(* ================================================================== *)
(** ** [loopchamber_app.py]: [MemoryScorer.score_memory] *)
(* ================================================================== *)

Module loopchamber_app.

Module MemoryScorer.

Import PyStr PyFloat Lexicon.

(** Comparison with the last five memories *)
Definition comparison_score_of (text : string)
    (existing_memories : option (list history_entry)) : float :=
  match existing_memories with
  | Some ((_ :: _) as ms) =>
      fold_left
        (fun comparison_score memory =>
           match memory with
           | Some content =>
               let existing_text := lower content in
               let words := split text in
               let existing_words := split existing_text in
               if share_word words existing_words && any_signal text
               then fadd comparison_score (lit 2 10)
               else comparison_score
           | None => comparison_score
           end)
        (last_n 5 ms) 0%Q
  | _ => 0%Q
  end.

(** ====== DISSONANCE ====== *)
Definition dissonance_of (text : string)
    (existing_memories : option (list history_entry)) : float :=
  let contradiction_score := contradiction_score_of text in
  let comparison_score := comparison_score_of text existing_memories in
  pymax (lit 1 10) (pymin (lit 9 10) (fadd contradiction_score comparison_score)).

(** ====== TEMPO ====== *)
Definition tempo_of (text memory_type : string) : float :=
  let question_factor :=
    pymin (lit 8 10)
          (fmul (of_int (Z.of_nat (count_char "?"%char text))) (lit 2 10)) in
  let emotional_words :=
    fold_left (fun n category =>
                 (n + count_found (dict_get emotional_lexicons category []) text)%nat)
              ["positive"; "negative"; "complex"] 0%nat in
  let emotion_factor :=
    pymin (lit 8 10) (fmul (of_int (Z.of_nat emotional_words)) (lit 5 100)) in
  let tempo_type_factor :=
    dict_get tempo_type_weights (lower memory_type) (lit 5 10) in
  fadd (fadd (fmul question_factor (lit 3 10)) (fmul emotion_factor (lit 3 10)))
       (fmul tempo_type_factor (lit 4 10)).

(** ====== EMOTION ====== *)
Definition emotion_of (text : string) : string :=
  let emotion_counts := emotion_counts_of text in
  let dominant_emotion := fst (find_dominant emotion_counts) in
  let positive := dict_get emotion_counts "positive" 0%nat in
  let negative := dict_get emotion_counts "negative" 0%nat in
  let complex := dict_get emotion_counts "complex" 0%nat in
  if ((0 <? positive) && (0 <? negative))%nat then
    if (0 <? complex)%nat
       || (Z.abs (Z.of_nat positive - Z.of_nat negative) <? 3)%Z
    then "complex" else dominant_emotion
  else dominant_emotion.

Definition score_memory (memory_content memory_type : string)
    (existing_memories : option (list history_entry)) : scores :=
  let text := lower memory_content in
  let word_count := List.length (split text) in
  {| pitch := round2 (pitch_of word_count memory_type);
     dissonance := round2 (dissonance_of text existing_memories);
     tempo := round2 (tempo_of text memory_type);
     emotion := emotion_of text |}.

End MemoryScorer.

(** *** [MemoryStore] *)

Module MemoryStore.

Import PyStr PyFloat.

(** The dict under ['musical_attributes']. *)
Record musical_attributes := mk_attributes {
  pitch : float;
  dissonance : float;
  tempo : float;
  emotion : string
}.

(** A memory dict. *)
Record memory := mk_memory {
  id : string;
  content : string;
  type : string;
  created_at : string;
  attributes : musical_attributes
}.

(** The object: [self.memories]. *)
Record store := mk_store { memories : list memory }.

(** What one call of [add_memory] reads from its environment. *)
Record env := mk_env {
  time_time : Z;              (* int(time.time()) *)
  randint_1000_9999 : Z;      (* random.randint(1000, 9999) *)
  now_isoformat : string      (* datetime.now().isoformat() *)
}.

(** [__init__] *)
Definition init : store := {| memories := [] |}.

Definition make_id (w : env) : string :=
  "mem_" ++ str_of_int (time_time w) ++ "_" ++ str_of_int (randint_1000_9999 w).

(** [add_memory]: the new state of the object and the returned id. *)
Definition add_memory (self : store) (w : env)
    (content memory_type : string) (pitch dissonance tempo : float)
    (emotion : string) : store * string :=
  let memory_id := make_id w in
  let timestamp := now_isoformat w in
  let memory :=
    {| id := memory_id;
       content := content;
       type := memory_type;
       created_at := timestamp;
       attributes :=
         {| pitch := pitch; dissonance := dissonance;
            tempo := tempo; emotion := emotion |} |} in
  ({| memories := memories self ++ [memory] |}, memory_id).

Definition get_all_memories (self : store) : list memory := memories self.

(** The arguments of one call of [add_memory], with what the call reads from
    its environment, and the record that the call builds. *)
Record call := mk_call {
  call_env : env;
  call_content : string;
  call_type : string;
  call_pitch : float;
  call_dissonance : float;
  call_tempo : float;
  call_emotion : string
}.

Definition record_of (c : call) : memory :=
  {| id := make_id (call_env c);
     content := call_content c;
     type := call_type c;
     created_at := now_isoformat (call_env c);
     attributes :=
       {| pitch := call_pitch c; dissonance := call_dissonance c;
          tempo := call_tempo c; emotion := call_emotion c |} |}.

Definition do_call (self : store) (c : call) : store * string :=
  add_memory self (call_env c) (call_content c) (call_type c)
             (call_pitch c) (call_dissonance c) (call_tempo c) (call_emotion c).

(** A sequence of calls, one after the other. *)
Definition do_calls (self : store) (cs : list call) : store :=
  fold_left (fun s c => fst (do_call s c)) cs self.

End MemoryStore.

(** *** The helper [add_memory(content, memory_type)]: score, then store. *)

Definition history_of (ms : list MemoryStore.memory) : list Lexicon.history_entry :=
  map (fun m => Some (MemoryStore.content m)) ms.

Definition add_memory (memory_store : MemoryStore.store) (w : MemoryStore.env)
    (content memory_type : string)
    : MemoryStore.store * (string * Lexicon.scores) :=
  let existing_memories := MemoryStore.get_all_memories memory_store in
  let scores :=
    MemoryScorer.score_memory content memory_type
                              (Some (history_of existing_memories)) in
  let '(memory_store', memory_id) :=
    MemoryStore.add_memory memory_store w content memory_type
      (Lexicon.pitch scores) (Lexicon.dissonance scores)
      (Lexicon.tempo scores) (Lexicon.emotion scores) in
  (memory_store', (memory_id, scores)).

End loopchamber_app.

(* ================================================================== *)
(** ** [memory_scorer.py]: the simplified [MemoryScorer.score_memory] *)
(* ================================================================== *)

Module memory_scorer.

Module MemoryScorer.

Import PyStr PyFloat Lexicon.

(** ====== DISSONANCE ====== (simplified version: no comparison) *)
Definition dissonance_of (text : string) : float :=
  pymax (lit 1 10) (pymin (lit 9 10) (contradiction_score_of text)).

(** ====== TEMPO ====== (no emotional charge) *)
Definition tempo_of (text memory_type : string) : float :=
  let question_factor :=
    pymin (lit 8 10)
          (fmul (of_int (Z.of_nat (count_char "?"%char text))) (lit 2 10)) in
  let tempo_type_factor :=
    dict_get tempo_type_weights (lower memory_type) (lit 5 10) in
  fadd (fmul question_factor (lit 4 10)) (fmul tempo_type_factor (lit 6 10)).

(** ====== EMOTION ====== (no check for mixed emotions) *)
Definition emotion_of (text : string) : string :=
  fst (find_dominant (emotion_counts_of text)).

(** [existing_memories] is accepted and never read. *)
Definition score_memory (content memory_type : string)
    (existing_memories : option (list history_entry)) : scores :=
  let text := lower content in
  let word_count := List.length (split text) in
  {| pitch := round2 (pitch_of word_count memory_type);
     dissonance := round2 (dissonance_of text);
     tempo := round2 (tempo_of text memory_type);
     emotion := emotion_of text |}.

End MemoryScorer.

End memory_scorer.

(* ================================================================== *)
(** ** The connection operation of the Memory Graph Store *)
(* ================================================================== *)

Module GraphStore.

Import loopchamber_app.












End GraphStore.

(* ================================================================== *)
(** ** The formulas of the specification, in exact arithmetic *)
(* ================================================================== *)

Module Spec.

Import PyStr PyFloat Lexicon.
Local Open Scope Q_scope.

Definition clamp (x lo hi : Q) : Q := Qmax lo (Qmin hi x).

(** Rounded to two decimals. *)
Definition two_decimals (x : Q) : Q := inject_Z (round_half_even (x * 100)) / 100.

(** The per-type weight of the pitch; the type is compared lower-cased,
    anything else is unrecognized. *)
Definition type_factor (memory_type : string) : Q :=
  let t := lower memory_type in
  if String.eqb t "insight" then 8 # 10
  else if String.eqb t "question" then 7 # 10
  else if String.eqb t "observation" then 6 # 10
  else if String.eqb t "event" then 5 # 10
  else if String.eqb t "reflection" then 7 # 10
  else 5 # 10.

Definition pitch_formula (word_count : nat) (type_factor : Q) : Q :=
  two_decimals
    ((4 # 10) * clamp (inject_Z (Z.of_nat word_count) / 100) (1 # 10) 1
     + (6 # 10) * type_factor).

Definition pitch (word_count : nat) (memory_type : string) : Q :=
  pitch_formula word_count (type_factor memory_type).

(** Number of contradiction-signal phrases found as substrings. *)
Definition signals_found (text : string) : nat :=
  List.length (filter (fun signal => contains signal text) contradiction_signals).

(** An entry shares a whitespace-split token with the text, case-insensitively. *)
Definition shares_token (text : string) (entry : history_entry) : bool :=
  match entry with
  | Some content => share_word (split text) (split (lower content))
  | None => false
  end.

Definition history_list (history : option (list history_entry)) : list history_entry :=
  match history with Some l => l | None => [] end.

(** Number of entries, among the five most recent, that share a token. *)
Definition sharing_entries (text : string)
    (history : option (list history_entry)) : nat :=
  List.length (filter (shares_token text) (last_n 5 (history_list history))).

(** [n] signals found, [k] sharing entries among the last five. *)
Definition dissonance_formula (n k : nat) : Q :=
  let signal_score := Qmin (8 # 10) ((15 # 100) * inject_Z (Z.of_nat n)) in
  let comparison_bonus :=
    if (1 <=? n)%nat then (2 # 10) * inject_Z (Z.of_nat k) else 0 in
  two_decimals (clamp (signal_score + comparison_bonus) (1 # 10) (9 # 10)).

Definition dissonance (text : string)
    (history : option (list history_entry)) : Q :=
  dissonance_formula (signals_found text) (sharing_entries text history).

(** Counts of the four categories in a text. *)
Definition count_of (category text : string) : nat :=
  List.length (filter (fun word => contains word text)
                      (dict_get emotional_lexicons category [])).

(** The mixed-signal condition. *)
Definition mixed_signal (text : string) : Prop :=
  let p := count_of "positive" text in
  let n := count_of "negative" text in
  let c := count_of "complex" text in
  (p <> 0 /\ n <> 0 /\
   (c <> 0 \/ (Z.abs (Z.of_nat p - Z.of_nat n) < 3)%Z))%nat.

Definition mixed_signalb (text : string) : bool :=
  let p := count_of "positive" text in
  let n := count_of "negative" text in
  let c := count_of "complex" text in
  negb (p =? 0)%nat && negb (n =? 0)%nat &&
  (negb (c =? 0)%nat || (Z.abs (Z.of_nat p - Z.of_nat n) <? 3)%Z).

(** The first category, in the order positive, negative, neutral, complex,
    whose count is the highest one; neutral when every count is zero. *)
Definition first_highest (p n u c : nat) : string :=
  let m := Nat.max (Nat.max p n) (Nat.max u c) in
  if (m =? 0)%nat then "neutral"
  else if (p =? m)%nat then "positive"
  else if (n =? m)%nat then "negative"
  else if (u =? m)%nat then "neutral"
  else "complex".

Definition first_highest_of (text : string) : string :=
  first_highest (count_of "positive" text) (count_of "negative" text)
                (count_of "neutral" text) (count_of "complex" text).

(** At least two categories reach the highest count. *)
Definition tie_at_top (text : string) : Prop :=
  let p := count_of "positive" text in
  let n := count_of "negative" text in
  let u := count_of "neutral" text in
  let c := count_of "complex" text in
  let m := Nat.max (Nat.max p n) (Nat.max u c) in
  (2 <= List.length (filter (Nat.eqb m) [p; n; u; c]))%nat.

(** The two sentences on the dominant emotion, read literally, for a
    scorer [score]. *)
Definition mixed_gives_complex
    (score : string -> string -> option (list history_entry) -> scores) : Prop :=
  forall content memory_type history,
    mixed_signal (lower content) ->
    emotion (score content memory_type history) = "complex".

Definition ties_give_neutral
    (score : string -> string -> option (list history_entry) -> scores) : Prop :=
  forall content memory_type history,
    tie_at_top (lower content) ->
    emotion (score content memory_type history) = "neutral".

End Spec.

(* ================================================================== *)
(** ** The arithmetic of [score_memory] as functions of its counts *)
(* ================================================================== *)

Module Core.

Import PyStr PyFloat Lexicon.

(** Equality of two rationals as fractions (numerator and denominator). *)
Definition Q_eqb (a b : Q) : bool :=
  (Qnum a =? Qnum b)%Z && (Qden a =? Qden b)%positive.

(** [P] holds of every number below [n]. *)
Definition all_below (n : nat) (P : nat -> bool) : bool :=
  forallb P (seq 0 n).

Definition in_range (lo hi x : float) : bool := fleb lo x && fleb x hi.

Definition length_factor (word_count : nat) : float :=
  pymin (lit 1 1) (pymax (lit 1 10) (truediv (Z.of_nat word_count) 100)).

Definition pitch_core (word_count : nat) (type_factor : float) : float :=
  fadd (fmul (length_factor word_count) (lit 4 10)) (fmul type_factor (lit 6 10)).

(** [n] additions of [c], as the loops of the source do them. *)
Definition add_times (n : nat) (c : float) : float :=
  Nat.iter n (fun acc => fadd acc c) 0%Q.

Definition dissonance_core (n k : nat) : float :=
  pymax (lit 1 10)
        (pymin (lit 9 10)
               (fadd (pymin (lit 8 10) (add_times n (lit 15 100)))
                     (add_times k (lit 2 10)))).

Definition dissonance_core_simplified (n : nat) : float :=
  pymax (lit 1 10) (pymin (lit 9 10) (pymin (lit 8 10) (add_times n (lit 15 100)))).

Definition capped_factor (count : nat) (unit : float) : float :=
  pymin (lit 8 10) (fmul (of_int (Z.of_nat count)) unit).

Definition tempo_core (questions emotional_words : nat) (type_factor : float)
    : float :=
  fadd (fadd (fmul (capped_factor questions (lit 2 10)) (lit 3 10))
             (fmul (capped_factor emotional_words (lit 5 100)) (lit 3 10)))
       (fmul type_factor (lit 4 10)).

Definition tempo_core_simplified (questions : nat) (type_factor : float)
    : float :=
  fadd (fmul (capped_factor questions (lit 2 10)) (lit 4 10))
       (fmul type_factor (lit 6 10)).

(** The values a type can select in each table, with the default. *)
Definition pitch_factors : list (float * Q) :=
  [ (lit 8 10, 8 # 10); (lit 7 10, 7 # 10); (lit 6 10, 6 # 10);
    (lit 5 10, 5 # 10) ].

Definition tempo_factors : list float :=
  [lit 7 10; lit 8 10; lit 5 10; lit 4 10; lit 6 10].

End Core.

(* ================================================================== *)
(** ** The tempo formulas, in exact arithmetic *)
(* ================================================================== *)

Module Formulas.

Import PyStr PyFloat Lexicon.
Local Open Scope Q_scope.

(** The per-type weight of the tempo; the type is compared lower-cased. *)
Definition tempo_type_factor (memory_type : string) : Q :=
  let t := lower memory_type in
  if String.eqb t "insight" then 7 # 10
  else if String.eqb t "question" then 8 # 10
  else if String.eqb t "observation" then 5 # 10
  else if String.eqb t "event" then 4 # 10
  else if String.eqb t "reflection" then 6 # 10
  else 5 # 10.

Definition question_factor (text : string) : Q :=
  Qmin (8 # 10) ((2 # 10) * inject_Z (Z.of_nat (count_char "?" text))).

(** Words of the positive, negative and complex lexicons found in the text
    (the neutral lexicon is not counted). *)
Definition emotional_words (text : string) : nat :=
  Spec.count_of "positive" text + Spec.count_of "negative" text
  + Spec.count_of "complex" text.

Definition emotion_factor (text : string) : Q :=
  Qmin (8 # 10) ((5 # 100) * inject_Z (Z.of_nat (emotional_words text))).

(** [loopchamber_app.py]: three factors, before rounding. *)
Definition tempo (text memory_type : string) : Q :=
  (3 # 10) * question_factor text + (3 # 10) * emotion_factor text
  + (4 # 10) * tempo_type_factor memory_type.

(** [memory_scorer.py]: two factors, rounded to two decimals. *)
Definition tempo_simplified (text memory_type : string) : Q :=
  Spec.two_decimals
    ((4 # 10) * question_factor text + (6 # 10) * tempo_type_factor memory_type).

(** The same formulas on the counts. *)
Definition tempo_on (questions emotional : nat) (type_factor : Q) : Q :=
  (3 # 10) * Qmin (8 # 10) ((2 # 10) * inject_Z (Z.of_nat questions))
  + (3 # 10) * Qmin (8 # 10) ((5 # 100) * inject_Z (Z.of_nat emotional))
  + (4 # 10) * type_factor.

Definition tempo_simplified_on (questions : nat) (type_factor : Q) : Q :=
  Spec.two_decimals
    ((4 # 10) * Qmin (8 # 10) ((2 # 10) * inject_Z (Z.of_nat questions))
     + (6 # 10) * type_factor).

Definition tempo_factor_pairs : list (float * Q) :=
  [ (lit 7 10, 7 # 10); (lit 8 10, 8 # 10); (lit 5 10, 5 # 10);
    (lit 4 10, 4 # 10); (lit 6 10, 6 # 10) ].

(** The two-place decimal that [round(x, 2)] selects, as a number of
    hundredths. *)
Definition hundredths (x : float) : Z := round_half_even (x * 100).

End Formulas.

(* ================================================================== *)
(** ** Sequences of calls of the helper [add_memory] *)
(* ================================================================== *)

Module Sessions.

Import loopchamber_app.

(** One use of the form: what the user typed and what the call reads from
    its environment. *)
Record submission := mk_submission {
  sub_env : MemoryStore.env;
  sub_content : string;
  sub_type : string
}.

Definition submit (memory_store : MemoryStore.store) (s : submission)
    : MemoryStore.store :=
  fst (add_memory memory_store (sub_env s) (sub_content s) (sub_type s)).

Definition submit_all (memory_store : MemoryStore.store)
    (l : list submission) : MemoryStore.store :=
  fold_left submit l memory_store.

(** The attribute ranges of the scorer, on a stored record. *)
Definition well_scored (m : MemoryStore.memory) : Prop :=
  let a := MemoryStore.attributes m in
  (0 <= MemoryStore.pitch a <= 1)%Q
  /\ (PyFloat.lit 1 10 <= MemoryStore.dissonance a <= PyFloat.lit 9 10)%Q
  /\ (0 <= MemoryStore.tempo a <= 1)%Q
  /\ In (MemoryStore.emotion a) ["positive"; "negative"; "neutral"; "complex"].

End Sessions.

(* ================================================================== *)
(** ** [memory_store.py]: the list logic of the application script *)
(* ================================================================== *)

Module memory_store.

Import PyStr PyFloat.
Import loopchamber_app.MemoryStore.

(** [memory_musical_chart], "Truncate content for label":
    [content[:50]], followed by "..." when the content is longer. *)
Definition label (content : string) : string :=
  let c := substring 0 50 content in
  if (50 <? String.length content)%nat then c ++ "..." else c.

(** [sorted(l, key=key, reverse=True)].  Python's sort is stable, also with
    [reverse=True]: items with equal keys keep their order; the result is
    the one of this insertion sort, in which an item passes only the items
    of strictly greater key. *)
Fixpoint insert_desc {A} (key : A -> float) (x : A) (l : list A) : list A :=
  match l with
  | [] => [x]
  | y :: r =>
      if fltb (key x) (key y) then y :: insert_desc key x r else x :: y :: r
  end.

Definition sorted_desc {A} (key : A -> float) (l : list A) : list A :=
  fold_right (insert_desc key) [] l.

(** [a] may come before [b] in a list sorted in descending order. *)
Definition descending {A} (key : A -> float) (a b : A) : Prop :=
  (key b <= key a)%Q.

(** "Top Dissonant Memories": [sorted(memories, key=dissonance,
    reverse=True)[:5]]. *)
Definition dissonant_memories (memories : list memory) : list memory :=
  firstn 5 (sorted_desc (fun m => dissonance (attributes m)) memories).

(** [memory_musical_chart]: the indices of the points that get a label,
    [sorted(range(len(tempo_values)), key=lambda i: tempo_values[i],
    reverse=True)[:3]]. *)
Definition top_indices (tempo_values : list float) : list nat :=
  firstn 3 (sorted_desc (fun i => nth i tempo_values 0%Q)
                        (seq 0 (List.length tempo_values))).

(** "Browse Memories", "Apply filters": a filter is applied only when its
    selection is not empty. *)
Definition selected (selection : list string) (x : string) : bool :=
  existsb (String.eqb x) selection.

Definition apply_filters (filter_type filter_emotion : list string)
    (memories : list memory) : list memory :=
  let filtered_memories := memories in
  let filtered_memories :=
    match filter_type with
    | [] => filtered_memories
    | _ => filter (fun m => selected filter_type (type m)) filtered_memories
    end in
  let filtered_memories :=
    match filter_emotion with
    | [] => filtered_memories
    | _ => filter (fun m => selected filter_emotion (emotion (attributes m)))
                  filtered_memories
    end in
  filtered_memories.

(** A dict with string keys, in insertion order: [k in d] and [d[k]]
    together ([None] when the key is missing), and [d[k] = v]. *)
Fixpoint dict_lookup {V} (d : list (string * V)) (k : string) : option V :=
  match d with
  | [] => None
  | (k', v) :: r => if String.eqb k k' then Some v else dict_lookup r k
  end.

Fixpoint dict_set {V} (d : list (string * V)) (k : string) (v : V)
    : list (string * V) :=
  match d with
  | [] => [(k, v)]
  | (k', v') :: r =>
      if String.eqb k k' then (k', v) :: r else (k', v') :: dict_set r k v
  end.

(** "Emotion distribution":
    [emotion_counts[emotion] = emotion_counts.get(emotion, 0) + 1]
    for each emotion, from the empty dict. *)
Definition count_emotions (emotions : list string) : list (string * nat) :=
  fold_left (fun emotion_counts emotion =>
               dict_set emotion_counts emotion
                        (match dict_lookup emotion_counts emotion with
                         | Some n => n
                         | None => 0
                         end + 1)%nat)
            emotions [].

(** "Emotional Trends": the state of the loop over the memories sorted by
    creation time. *)
Record trend := mk_trend {
  dates : list string;
  emotion_series : list (string * list nat);
  current_date : option string;
  date_emotions : list (string * nat)
}.

Definition trend_labels : list string :=
  ["positive"; "negative"; "neutral"; "complex"].

Definition initial_trend : trend :=
  {| dates := [];
     emotion_series := map (fun e => (e, [])) trend_labels;
     current_date := None;
     date_emotions := map (fun e => (e, 0%nat)) trend_labels |}.

(** [for e in emotion_series: emotion_series[e].append(date_emotions[e])];
    [None] stands for a [KeyError]. *)
Fixpoint append_counts (series : list (string * list nat))
    (counts : list (string * nat)) : option (list (string * list nat)) :=
  match series with
  | [] => Some []
  | (e, l) :: r =>
      match dict_lookup counts e, append_counts r counts with
      | Some n, Some r' => Some ((e, (l ++ [n])%list) :: r')
      | _, _ => None
      end
  end.

(** [if current_date is not None: dates.append(current_date); ...] *)
Definition close_date (t : trend) : option trend :=
  match current_date t with
  | None => Some t
  | Some d =>
      match append_counts (emotion_series t) (date_emotions t) with
      | Some series =>
          Some {| dates := (dates t ++ [d])%list;
                  emotion_series := series;
                  current_date := current_date t;
                  date_emotions := date_emotions t |}
      | None => None
      end
  end.

Definition same_date (current : option string) (date_str : string) : bool :=
  match current with
  | Some d => String.eqb date_str d
  | None => false
  end.

(** The body of the loop, for one memory. *)
Definition trend_step (t : trend) (memory : memory) : option trend :=
  let date_str := substring 0 10 (created_at memory) in
  let emotion := emotion (attributes memory) in
  let opened :=
    if same_date (current_date t) date_str then Some t
    else
      match close_date t with
      | Some t' =>
          Some {| dates := dates t';
                  emotion_series := emotion_series t';
                  current_date := Some date_str;
                  date_emotions :=
                    map (fun '(e, _) => (e, 0%nat)) (emotion_series t') |}
      | None => None
      end in
  match opened with
  | Some t1 =>
      match dict_lookup (date_emotions t1) emotion with
      | Some n =>
          Some {| dates := dates t1;
                  emotion_series := emotion_series t1;
                  current_date := current_date t1;
                  date_emotions :=
                    dict_set (date_emotions t1) emotion (n + 1)%nat |}
      | None => None
      end
  | None => None
  end.

Fixpoint trend_loop (t : trend) (memories : list memory) : option trend :=
  match memories with
  | [] => Some t
  | m :: r =>
      match trend_step t m with
      | Some t' => trend_loop t' r
      | None => None
      end
  end.

(** The whole block: the dates and the series that are plotted. *)
Definition emotion_trends (time_sorted_memories : list memory)
    : option (list string * list (string * list nat)) :=
  match trend_loop initial_trend time_sorted_memories with
  | Some t =>
      match close_date t with
      | Some t' => Some (dates t', emotion_series t')
      | None => None
      end
  | None => None
  end.

(** Sum of all the counts of the plotted series. *)
Definition series_total (series : list (string * list nat)) : nat :=
  list_sum (map (fun '(_, l) => list_sum l) series).

(** No two neighbours of the list are equal. *)
Fixpoint no_repeat (l : list string) : Prop :=
  match l with
  | x :: ((y :: _) as r) => x <> y /\ no_repeat r
  | _ => True
  end.

(** What the loop keeps true after [n] memories: the two dicts have the four
    labels as keys, every series has one count per closed date, the counts
    of the closed dates and of the open one add up to [n], the closed dates
    followed by the open one have no equal neighbours, and a date is open
    as soon as one memory has been read. *)
Definition trend_inv (t : trend) (n : nat) : Prop :=
  exists l1 l2 l3 l4 a b c d,
    emotion_series t
    = [("positive", l1); ("negative", l2); ("neutral", l3); ("complex", l4)]
    /\ date_emotions t
       = [("positive", a); ("negative", b); ("neutral", c); ("complex", d)]
    /\ List.length l1 = List.length (dates t)
    /\ List.length l2 = List.length (dates t)
    /\ List.length l3 = List.length (dates t)
    /\ List.length l4 = List.length (dates t)
    /\ (list_sum l1 + list_sum l2 + list_sum l3 + list_sum l4
        + (a + b + c + d) = n)%nat
    /\ no_repeat (dates t ++ match current_date t with
                             | Some x => [x]
                             | None => []
                             end)%list
    /\ (current_date t = None -> n = 0%nat /\ dates t = []).

End memory_store.

(* ================================================================== *)
(** ** Blank texts *)
(* ================================================================== *)

Module Texts.

Import PyStr.

(** [s.isspace()] or [s == ""]: every character of the string is white
    space. *)
Fixpoint blank (s : string) : bool :=
  match s with
  | EmptyString => true
  | String c r => isspace c && blank r
  end.

End Texts.

(* ================================================================== *)
(** ** Facts about rounding *)
(* ================================================================== *)

Section Rounding.

Import PyFloat.
Local Open Scope Q_scope.

Lemma pow2_pos k : 0 < pow2 k.
Proof. apply Qpower_0_lt. reflexivity. Qed.

Lemma pow2_add a b : pow2 (a + b) == pow2 a * pow2 b.
Proof. apply Qpower_plus. discriminate. Qed.

Lemma pow2_le a b : (a <= b)%Z -> pow2 a <= pow2 b.
Proof. intros H. apply Qpower_le_compat_l; [exact H | discriminate]. Qed.

Lemma pow2_lt_inv a b : pow2 a < pow2 b -> (a < b)%Z.
Proof. intros H. apply (Qpower_lt_compat_l_inv 2); [exact H | reflexivity]. Qed.

Lemma pow2_inject k : (0 <= k)%Z -> inject_Z (2 ^ k) == pow2 k.
Proof. intros H. unfold pow2. now rewrite Zpower_Qpower. Qed.

Lemma Q_as_fraction q : q * inject_Z (Zpos (Qden q)) == inject_Z (Qnum q).
Proof.
  destruct q as [n d]. unfold Qeq, Qmult, inject_Z. simpl. lia.
Qed.

Lemma floor_log2_spec q :
  0 < q -> pow2 (floor_log2 q) <= q /\ q < pow2 (floor_log2 q + 1).
Proof.
  intros Hq. unfold floor_log2.
  set (n := Qnum q). set (d := Zpos (Qden q)).
  assert (Hn : (0 < n)%Z).
  { destruct q as [qn qd]. unfold Qlt in Hq. simpl in *. subst n. simpl. lia. }
  assert (Hd : (0 < d)%Z) by (subst d; lia).
  pose proof (Z.log2_nonneg n) as Hln.
  pose proof (Z.log2_nonneg d) as Hld.
  destruct (Z.log2_spec n Hn) as [Hn1 Hn2].
  destruct (Z.log2_spec d Hd) as [Hd1 Hd2].
  set (ln := Z.log2 n) in *. set (ld := Z.log2 d) in *.
  pose proof (Q_as_fraction q) as Hfrac. fold n d in Hfrac.
  assert (Qn1 : pow2 ln <= inject_Z n).
  { rewrite <- pow2_inject by lia. rewrite <- Zle_Qle. exact Hn1. }
  assert (Qn2 : inject_Z n < pow2 (ln + 1)).
  { rewrite <- pow2_inject by lia. rewrite <- Zlt_Qlt.
    replace (ln + 1)%Z with (Z.succ ln) by lia. exact Hn2. }
  assert (Qd1 : pow2 ld <= inject_Z d).
  { rewrite <- pow2_inject by lia. rewrite <- Zle_Qle. exact Hd1. }
  assert (Qd2 : inject_Z d < pow2 (ld + 1)).
  { rewrite <- pow2_inject by lia. rewrite <- Zlt_Qlt.
    replace (ld + 1)%Z with (Z.succ ld) by lia. exact Hd2. }
  pose proof (pow2_pos ld) as Pld.
  pose proof (pow2_pos (ln - ld)) as Pl.
  pose proof (pow2_pos (ln - ld - 1)) as Pl1.
  assert (Hup : q < pow2 (ln - ld + 1)).
  { assert (E : pow2 (ln + 1) == pow2 (ln - ld + 1) * pow2 ld).
    { rewrite <- pow2_add. now replace (ln - ld + 1 + ld)%Z with (ln + 1)%Z by lia. }
    pose proof (pow2_pos (ln - ld + 1)).
    apply Qnot_le_lt. intros Hc.
    assert (pow2 (ln - ld + 1) * pow2 ld <= q * inject_Z d) by nra.
    lra. }
  assert (Hlow : pow2 (ln - ld - 1) < q).
  { assert (E : pow2 ln == pow2 (ln - ld - 1) * pow2 (ld + 1)).
    { rewrite <- pow2_add. now replace (ln - ld - 1 + (ld + 1))%Z with ln by lia. }
    apply Qnot_le_lt. intros Hc.
    assert (q * inject_Z d < pow2 (ln - ld - 1) * pow2 (ld + 1)) by nra.
    lra. }
  destruct (Qle_bool (pow2 (ln - ld)) q) eqn:Hb.
  - apply Qle_bool_iff in Hb. split; assumption.
  - assert (Hlt : q < pow2 (ln - ld)).
    { apply Qnot_le_lt. intros Hc. apply Qle_bool_iff in Hc. congruence. }
    split; [apply Qlt_le_weak; exact Hlow|].
    now replace (ln - ld - 1 + 1)%Z with (ln - ld)%Z by lia.
Qed.

Lemma rhe_cases q :
  let f := Qfloor q in
  (round_half_even q = f /\ q - inject_Z f <= 1 # 2) \/
  (round_half_even q = (f + 1)%Z /\ 1 # 2 <= q - inject_Z f).
Proof.
  intros f. unfold round_half_even. fold f.
  destruct (Qcompare (q - inject_Z f) (1 # 2)) eqn:E.
  - apply Qeq_alt in E. destruct (Z.even f); [left | right]; split; auto; lra.
  - apply Qlt_alt in E. left. split; auto. lra.
  - apply Qgt_alt in E. right. split; auto. lra.
Qed.

Lemma floor_bounds q : inject_Z (Qfloor q) <= q /\ q < inject_Z (Qfloor q) + 1.
Proof.
  split; [apply Qfloor_le|].
  pose proof (Qlt_floor q) as H. rewrite inject_Z_plus in H. exact H.
Qed.

Lemma rhe_ge z q : inject_Z z <= q -> (z <= round_half_even q)%Z.
Proof.
  intros H. pose proof (Qfloor_resp_le _ _ H) as Hf. rewrite Qfloor_Z in Hf.
  destruct (rhe_cases q) as [[-> _] | [-> _]]; lia.
Qed.

Lemma rhe_le z q : q <= inject_Z z -> (round_half_even q <= z)%Z.
Proof.
  intros H. destruct (floor_bounds q) as [H1 H2].
  assert (Hf : (Qfloor q <= z)%Z) by (rewrite Zle_Qle; lra).
  destruct (rhe_cases q) as [[-> _] | [-> Hr]]; [exact Hf|].
  assert (inject_Z (Qfloor q) < inject_Z z) by lra.
  rewrite <- Zlt_Qlt in H0. lia.
Qed.

Lemma rhe_mono a b : a <= b -> (round_half_even a <= round_half_even b)%Z.
Proof.
  intros H. pose proof (Qfloor_resp_le _ _ H) as Hf.
  destruct (Z.eq_dec (Qfloor a) (Qfloor b)) as [E | NE].
  - unfold round_half_even. rewrite E.
    destruct (Qcompare_spec (a - inject_Z (Qfloor b)) (1 # 2)) as [Ea | Ea | Ea];
      destruct (Qcompare_spec (b - inject_Z (Qfloor b)) (1 # 2)) as [Eb | Eb | Eb];
      try (destruct (Z.even (Qfloor b))); try lia; exfalso; lra.
  - assert (Hlt : (Qfloor a + 1 <= Qfloor b)%Z) by lia.
    destruct (rhe_cases a) as [[-> _] | [-> _]];
      destruct (rhe_cases b) as [[-> _] | [-> _]]; lia.
Qed.

Lemma floor_log2_ge k q : 0 < q -> pow2 k <= q -> (k <= floor_log2 q)%Z.
Proof.
  intros Hq H. destruct (floor_log2_spec q Hq) as [_ H2].
  assert (pow2 k < pow2 (floor_log2 q + 1)) by lra.
  apply pow2_lt_inv in H0. lia.
Qed.

Lemma RNE_pos_lower q : 0 < q -> pow2 (floor_log2 q) <= RNE_pos q.
Proof.
  intros Hq. unfold RNE_pos. rewrite Qred_correct.
  set (L := floor_log2 q). set (e := (L - 52)%Z).
  destruct (floor_log2_spec q Hq) as [H1 _]. fold L in H1.
  pose proof (pow2_pos e) as Pe.
  assert (E : pow2 L == pow2 52 * pow2 e).
  { rewrite <- pow2_add. now replace (52 + e)%Z with L by (subst e; lia). }
  assert (Hm : (2 ^ 52 <= round_half_even (q / pow2 e))%Z).
  { apply rhe_ge. rewrite pow2_inject by lia.
    apply Qle_shift_div_l; [exact Pe | lra]. }
  rewrite Zle_Qle in Hm. rewrite pow2_inject in Hm by lia.
  rewrite E. apply Qmult_le_compat_r; [exact Hm | lra].
Qed.

Lemma RNE_pos_upper q : 0 < q -> RNE_pos q <= pow2 (floor_log2 q + 1).
Proof.
  intros Hq. unfold RNE_pos. rewrite Qred_correct.
  set (L := floor_log2 q). set (e := (L - 52)%Z).
  destruct (floor_log2_spec q Hq) as [_ H2]. fold L in H2.
  pose proof (pow2_pos e) as Pe.
  assert (E : pow2 (L + 1) == pow2 53 * pow2 e).
  { rewrite <- pow2_add. now replace (53 + e)%Z with (L + 1)%Z by (subst e; lia). }
  assert (Hm : (round_half_even (q / pow2 e) <= 2 ^ 53)%Z).
  { apply rhe_le. rewrite pow2_inject by lia.
    apply Qle_shift_div_r; [exact Pe | lra]. }
  rewrite Zle_Qle in Hm. rewrite pow2_inject in Hm by lia.
  rewrite E. apply Qmult_le_compat_r; [exact Hm | lra].
Qed.

Lemma RNE_pos_mono a b : 0 < a -> a <= b -> RNE_pos a <= RNE_pos b.
Proof.
  intros Ha Hab. assert (Hb : 0 < b) by lra.
  destruct (floor_log2_spec a Ha) as [A1 A2].
  assert (HL : (floor_log2 a <= floor_log2 b)%Z)
    by (apply floor_log2_ge; [exact Hb | lra]).
  destruct (Z.eq_dec (floor_log2 a) (floor_log2 b)) as [E | NE].
  - unfold RNE_pos. rewrite !Qred_correct, E.
    set (e := (floor_log2 b - 52)%Z). pose proof (pow2_pos e) as Pe.
    apply Qmult_le_compat_r; [|lra].
    rewrite <- Zle_Qle. apply rhe_mono.
    apply Qmult_le_compat_r; [exact Hab|].
    apply Qlt_le_weak, Qinv_lt_0_compat, Pe.
  - apply Qle_trans with (pow2 (floor_log2 a + 1)); [apply RNE_pos_upper, Ha|].
    apply Qle_trans with (pow2 (floor_log2 b)); [apply pow2_le; lia|].
    apply RNE_pos_lower, Hb.
Qed.

Lemma RNE_mono a b : 0 < a -> a <= b -> RNE a <= RNE b.
Proof.
  intros Ha Hab. unfold RNE.
  assert (Hb : 0 < b) by lra.
  apply Qgt_alt in Ha as Ea. apply Qgt_alt in Hb as Eb.
  rewrite Ea, Eb. apply RNE_pos_mono; [|exact Hab]. lra.
Qed.

(** A value at least 1 stays at least 1 after rounding, and similarly for
    the other thresholds the scorer compares with. *)
Lemma RNE_ge_threshold (t q : Q) :
  0 < t -> RNE t = t -> t <= q -> t <= RNE q.
Proof.
  intros Ht Hfix Hq. rewrite <- Hfix at 1. now apply RNE_mono.
Qed.

Lemma round_half_even_comp a b : a == b -> round_half_even a = round_half_even b.
Proof.
  intros H. unfold round_half_even.
  rewrite (Qfloor_comp _ _ H).
  assert (E : a - inject_Z (Qfloor b) == b - inject_Z (Qfloor b)) by (rewrite H; reflexivity).
  now rewrite (Qcompare_comp _ _ E _ _ (Qeq_refl (1 # 2))).
Qed.

End Rounding.

(* ================================================================== *)
(** ** Saturation of the clamped factors *)
(* ================================================================== *)

Section Saturation.

Import PyFloat Core.
Local Open Scope Q_scope.

Lemma Q_eqb_eq a b : Q_eqb a b = true -> a = b.
Proof.
  destruct a as [an ad], b as [bn bd]. unfold Q_eqb. simpl.
  rewrite andb_true_iff, Z.eqb_eq, Pos.eqb_eq. intros [-> ->]. reflexivity.
Qed.

Lemma all_below_spec n P i :
  all_below n P = true -> (i < n)%nat -> P i = true.
Proof.
  unfold all_below. rewrite forallb_forall. intros H Hi.
  apply H, in_seq. lia.
Qed.

Lemma pymin_cap (cap y : float) : cap <= y -> pymin cap y = cap.
Proof.
  intros H. unfold pymin, fltb.
  apply Qle_bool_iff in H. now rewrite H.
Qed.

Lemma pymax_above (lo y : float) : lo < y -> pymax lo y = y.
Proof.
  intros H. unfold pymax, fltb.
  destruct (Qle_bool y lo) eqn:E; [|reflexivity].
  apply Qle_bool_iff in E. lra.
Qed.

(** From a hundred words on, the length factor is 1.0. *)
Lemma length_factor_saturates wc :
  (100 <= wc)%nat -> length_factor wc = lit 1 1.
Proof.
  intros H. unfold length_factor.
  assert (H1 : 1 <= truediv (Z.of_nat wc) 100).
  { unfold truediv. apply RNE_ge_threshold; [reflexivity | reflexivity |].
    apply Qle_shift_div_l; [reflexivity|].
    unfold Qle. simpl. lia. }
  assert (L : lit 1 10 < 1) by reflexivity.
  assert (L1 : lit 1 1 == 1) by reflexivity.
  rewrite pymax_above by lra. apply pymin_cap. lra.
Qed.

(** From four question marks on, the question factor is 0.8. *)
Lemma capped_factor_saturates q :
  (4 <= q)%nat -> capped_factor q (lit 2 10) = lit 8 10.
Proof.
  intros H. unfold capped_factor. apply pymin_cap.
  assert (H4 : 4 <= of_int (Z.of_nat q)).
  { unfold of_int. apply RNE_ge_threshold; [reflexivity | reflexivity |].
    unfold Qle. simpl. lia. }
  unfold fmul. apply RNE_ge_threshold; [reflexivity | reflexivity |].
  assert (E : lit 8 10 == 4 * lit 2 10) by reflexivity.
  assert (P : 0 < lit 2 10) by reflexivity.
  rewrite E. apply Qmult_le_compat_r; lra.
Qed.

End Saturation.

(* ================================================================== *)
(** ** The loops of [score_memory] in closed form *)
(* ================================================================== *)

Section Loops.

Import PyStr PyFloat Lexicon Core.

Lemma count_loop (P : string -> bool) (l : list string) (n : nat) :
  fold_left (fun n w => if P w then S n else n) l n
  = (n + List.length (filter P l))%nat.
Proof.
  revert n. induction l as [|w l IH]; intros n; simpl.
  - lia.
  - rewrite IH. destruct (P w); simpl; lia.
Qed.

Lemma count_found_filter words text :
  count_found words text
  = List.length (filter (fun w => contains w text) words).
Proof. unfold count_found. now rewrite count_loop. Qed.

Lemma count_found_le words text :
  (count_found words text <= List.length words)%nat.
Proof. rewrite count_found_filter. apply filter_length_le. Qed.

Lemma add_loop {A} (P : A -> bool) (c : float) (l : list A) (a : float) :
  fold_left (fun acc x => if P x then fadd acc c else acc) l a
  = Nat.iter (List.length (filter P l)) (fun acc => fadd acc c) a.
Proof.
  revert a. induction l as [|x l IH]; intros a; simpl; [reflexivity|].
  rewrite IH. destruct (P x); [|reflexivity].
  simpl List.length. now rewrite Nat.iter_succ_r.
Qed.

Lemma existsb_filter {A} (P : A -> bool) (l : list A) :
  existsb P l = (1 <=? List.length (filter P l))%nat.
Proof.
  induction l as [|x l IH]; simpl; [reflexivity|].
  destruct (P x); simpl; [reflexivity | exact IH].
Qed.

Lemma any_signal_found text :
  any_signal text = (1 <=? Spec.signals_found text)%nat.
Proof. unfold any_signal, Spec.signals_found. apply existsb_filter. Qed.

Lemma signals_found_le text : (Spec.signals_found text <= 16)%nat.
Proof.
  unfold Spec.signals_found.
  etransitivity; [apply filter_length_le | reflexivity].
Qed.

Lemma last_n_length {A} n (l : list A) : (List.length (last_n n l) <= n)%nat.
Proof. unfold last_n. rewrite length_skipn. lia. Qed.

Lemma sharing_entries_le text h : (Spec.sharing_entries text h <= 5)%nat.
Proof.
  unfold Spec.sharing_entries.
  etransitivity; [apply filter_length_le | apply last_n_length].
Qed.

Lemma contradiction_score_closed text :
  contradiction_score_of text
  = pymin (lit 8 10) (add_times (Spec.signals_found text) (lit 15 100)).
Proof.
  unfold contradiction_score_of, add_times, Spec.signals_found.
  now rewrite (add_loop (fun signal => contains signal text)).
Qed.

End Loops.

(** *** Dissonance *)

Section Dissonance.

Import PyStr PyFloat Lexicon Core.
Import loopchamber_app.

Lemma fold_left_ext {A B} (f g : A -> B -> A) (l : list B) (a : A) :
  (forall a b, f a b = g a b) -> fold_left f l a = fold_left g l a.
Proof.
  intros H. revert a. induction l as [|b l IH]; intros a; simpl; [reflexivity|].
  now rewrite H, IH.
Qed.

Lemma comparison_loop text (l : list history_entry) :
  fold_left
    (fun comparison_score memory =>
       match memory with
       | Some content =>
           let existing_text := lower content in
           let words := split text in
           let existing_words := split existing_text in
           if share_word words existing_words && any_signal text
           then fadd comparison_score (lit 2 10)
           else comparison_score
       | None => comparison_score
       end) l 0%Q
  = add_times (if any_signal text
               then List.length (filter (Spec.shares_token text) l)
               else 0%nat) (lit 2 10).
Proof.
  unfold add_times.
  rewrite (fold_left_ext _
             (fun acc e => if Spec.shares_token text e && any_signal text
                           then fadd acc (lit 2 10) else acc)).
  - rewrite add_loop. f_equal.
    destruct (any_signal text).
    + f_equal. apply filter_ext. intros e. apply andb_true_r.
    + rewrite (filter_ext _ (fun _ => false)).
      * induction l; simpl; auto.
      * intros e. apply andb_false_r.
  - intros a [c|]; reflexivity.
Qed.

Lemma comparison_score_closed text h :
  MemoryScorer.comparison_score_of text h
  = add_times (if (1 <=? Spec.signals_found text)%nat
               then Spec.sharing_entries text h else 0%nat) (lit 2 10).
Proof.
  rewrite <- any_signal_found. unfold Spec.sharing_entries.
  destruct h as [[|m ms]|]; simpl Spec.history_list.
  - destruct (any_signal text); reflexivity.
  - unfold MemoryScorer.comparison_score_of. apply comparison_loop.
  - destruct (any_signal text); reflexivity.
Qed.

Lemma dissonance_closed text h :
  MemoryScorer.dissonance_of text h
  = dissonance_core (Spec.signals_found text)
      (if (1 <=? Spec.signals_found text)%nat
       then Spec.sharing_entries text h else 0%nat).
Proof.
  unfold MemoryScorer.dissonance_of, dissonance_core.
  now rewrite contradiction_score_closed, comparison_score_closed.
Qed.

(** The finite check behind the statements on the dissonance: every number
    of signals and every number of sharing entries. *)
Lemma dissonance_checked :
  all_below 17 (fun n =>
    in_range (lit 1 10) (lit 9 10) (round2 (dissonance_core_simplified n))
    && all_below 6 (fun k =>
      Q_eqb (round2 (dissonance_core n (if (1 <=? n)%nat then k else 0%nat)))
            (RNE (Spec.dissonance_formula n k))
      && in_range (lit 1 10) (lit 9 10)
                  (round2 (dissonance_core n (if (1 <=? n)%nat then k else 0%nat))))) = true.
Proof. vm_compute. reflexivity. Qed.

Lemma dissonance_core_ok n k :
  (n <= 16)%nat -> (k <= 5)%nat ->
  round2 (dissonance_core n (if (1 <=? n)%nat then k else 0%nat))
  = RNE (Spec.dissonance_formula n k)
  /\ in_range (lit 1 10) (lit 9 10)
       (round2 (dissonance_core n (if (1 <=? n)%nat then k else 0%nat))) = true.
Proof.
  intros Hn Hk.
  pose proof (all_below_spec _ _ n dissonance_checked ltac:(lia)) as H.
  cbv beta in H. apply andb_true_iff in H as [_ H].
  pose proof (all_below_spec _ _ k H ltac:(lia)) as H'.
  cbv beta in H'. apply andb_true_iff in H' as [H1 H2].
  split; [apply Q_eqb_eq, H1 | exact H2].
Qed.

Lemma dissonance_core_simplified_ok n :
  (n <= 16)%nat ->
  in_range (lit 1 10) (lit 9 10) (round2 (dissonance_core_simplified n)) = true.
Proof.
  intros Hn.
  pose proof (all_below_spec _ _ n dissonance_checked ltac:(lia)) as H.
  cbv beta in H. now apply andb_true_iff in H as [H _].
Qed.

Lemma simplified_dissonance_closed text :
  memory_scorer.MemoryScorer.dissonance_of text
  = dissonance_core_simplified (Spec.signals_found text).
Proof.
  unfold memory_scorer.MemoryScorer.dissonance_of, dissonance_core_simplified.
  now rewrite contradiction_score_closed.
Qed.

End Dissonance.

(** *** Pitch and tempo *)

Section PitchTempo.

Import PyStr PyFloat Lexicon Core.
Local Open Scope Q_scope.

(** The finite checks behind the statements on pitch and tempo: every word
    count up to 100, every number of question marks up to 4, every number of
    emotional words, every weight of the tables. *)
Lemma pitch_checked :
  all_below 101 (fun wc =>
    forallb (fun '(tf, tfs) =>
               Q_eqb (round2 (pitch_core wc tf)) (RNE (Spec.pitch_formula wc tfs))
               && in_range 0 1 (round2 (pitch_core wc tf)))
            pitch_factors) = true.
Proof. vm_compute. reflexivity. Qed.

Lemma tempo_checked :
  all_below 5 (fun q =>
    forallb (fun tf =>
               in_range 0 1 (round2 (tempo_core_simplified q tf))
               && all_below 48 (fun e => in_range 0 1 (round2 (tempo_core q e tf))))
            tempo_factors) = true.
Proof. vm_compute. reflexivity. Qed.

(** The two tables agree on every key: the float selected is the literal of
    the exact weight. *)
Lemma type_factor_pair memory_type :
  In (dict_get type_weights (lower memory_type) (lit 5 10),
      Spec.type_factor memory_type) pitch_factors.
Proof.
  unfold Spec.type_factor, type_weights, dict_get, pitch_factors.
  destruct (String.eqb (lower memory_type) "insight"); [simpl; auto|].
  destruct (String.eqb (lower memory_type) "question"); [simpl; auto|].
  destruct (String.eqb (lower memory_type) "observation"); [simpl; auto|].
  destruct (String.eqb (lower memory_type) "event"); [simpl; auto 6|].
  destruct (String.eqb (lower memory_type) "reflection"); simpl; auto 6.
Qed.

Lemma tempo_factor_in memory_type :
  In (dict_get tempo_type_weights (lower memory_type) (lit 5 10)) tempo_factors.
Proof.
  unfold tempo_type_weights, dict_get, tempo_factors.
  destruct (String.eqb (lower memory_type) "insight"); [simpl; auto|].
  destruct (String.eqb (lower memory_type) "question"); [simpl; auto|].
  destruct (String.eqb (lower memory_type) "observation"); [simpl; auto|].
  destruct (String.eqb (lower memory_type) "event"); [simpl; auto 6|].
  destruct (String.eqb (lower memory_type) "reflection"); simpl; auto 6.
Qed.

Lemma clamp_saturates wc :
  (100 <= wc)%nat ->
  Spec.clamp (inject_Z (Z.of_nat wc) / 100) (1 # 10) 1 == 1.
Proof.
  intros H. unfold Spec.clamp.
  assert (H1 : 1 <= inject_Z (Z.of_nat wc) / 100).
  { apply Qle_shift_div_l; [reflexivity|]. unfold Qle. simpl. lia. }
  rewrite (Q.min_l 1 _ H1). apply Q.max_r. discriminate.
Qed.

Lemma pitch_formula_saturates wc tfs :
  (100 <= wc)%nat -> Spec.pitch_formula wc tfs = Spec.pitch_formula 100 tfs.
Proof.
  intros H. unfold Spec.pitch_formula, Spec.two_decimals. do 2 f_equal.
  apply round_half_even_comp.
  rewrite (clamp_saturates wc H), (clamp_saturates 100%nat) by lia. reflexivity.
Qed.

Lemma pitch_core_saturates wc tf :
  (100 <= wc)%nat -> pitch_core wc tf = pitch_core 100 tf.
Proof.
  intros H. unfold pitch_core.
  now rewrite (length_factor_saturates wc H), (length_factor_saturates 100%nat) by lia.
Qed.

Lemma pitch_core_ok wc tf tfs :
  In (tf, tfs) pitch_factors ->
  round2 (pitch_core wc tf) = RNE (Spec.pitch_formula wc tfs)
  /\ in_range 0 1 (round2 (pitch_core wc tf)) = true.
Proof.
  intros Hin.
  assert (Hb : forall w, (w < 101)%nat ->
             round2 (pitch_core w tf) = RNE (Spec.pitch_formula w tfs)
             /\ in_range 0 1 (round2 (pitch_core w tf)) = true).
  { intros w Hw.
    pose proof (all_below_spec _ _ w pitch_checked Hw) as H. cbv beta in H.
    rewrite forallb_forall in H. specialize (H _ Hin). cbv beta iota in H.
    apply andb_true_iff in H as [H1 H2].
    split; [apply Q_eqb_eq, H1 | exact H2]. }
  destruct (Nat.lt_ge_cases wc 100) as [Hlt | Hge].
  - apply Hb. lia.
  - rewrite (pitch_core_saturates wc tf Hge), (pitch_formula_saturates wc tfs Hge).
    apply Hb. lia.
Qed.

Lemma tempo_core_ok q e tf :
  In tf tempo_factors -> (e <= 47)%nat ->
  in_range 0 1 (round2 (tempo_core q e tf)) = true
  /\ in_range 0 1 (round2 (tempo_core_simplified q tf)) = true.
Proof.
  intros Hin He.
  assert (Hb : forall q', (q' < 5)%nat ->
             in_range 0 1 (round2 (tempo_core q' e tf)) = true
             /\ in_range 0 1 (round2 (tempo_core_simplified q' tf)) = true).
  { intros q' Hq.
    pose proof (all_below_spec _ _ q' tempo_checked Hq) as H. cbv beta in H.
    rewrite forallb_forall in H. specialize (H _ Hin). cbv beta in H.
    apply andb_true_iff in H as [H1 H2].
    split; [|exact H1].
    apply (all_below_spec _ _ e H2). lia. }
  destruct (Nat.lt_ge_cases q 4) as [Hlt | Hge].
  - apply Hb. lia.
  - assert (H4 : (4 < 5)%nat) by lia.
    specialize (Hb 4%nat H4). unfold tempo_core, tempo_core_simplified in *.
    rewrite (capped_factor_saturates 4%nat) in Hb by lia.
    rewrite (capped_factor_saturates q Hge). exact Hb.
Qed.

End PitchTempo.

(** *** Emotion *)

Ltac split_ltb :=
  match goal with
  | |- context [(?a <? ?b)%nat] => destruct (Nat.ltb_spec a b)
  end.

Ltac split_eqb :=
  match goal with
  | |- context [(?a =? ?b)%nat] => destruct (Nat.eqb_spec a b)
  end.

Section Emotion.

Import PyStr PyFloat Lexicon Core.

Lemma emotion_counts_closed text :
  emotion_counts_of text
  = [ ("positive", Spec.count_of "positive" text);
      ("negative", Spec.count_of "negative" text);
      ("neutral", Spec.count_of "neutral" text);
      ("complex", Spec.count_of "complex" text) ].
Proof.
  unfold emotion_counts_of, Spec.count_of.
  rewrite <- !count_found_filter. reflexivity.
Qed.

Lemma find_dominant_first p n u c :
  fst (find_dominant [("positive", p); ("negative", n); ("neutral", u); ("complex", c)])
  = Spec.first_highest p n u c.
Proof.
  unfold find_dominant, Spec.first_highest. cbn [fold_left].
  do 4 split_ltb; cbn [fst]; repeat split_eqb; try reflexivity; lia.
Qed.

Lemma mixed_signal_iff text :
  Spec.mixed_signal text <-> Spec.mixed_signalb text = true.
Proof.
  unfold Spec.mixed_signal, Spec.mixed_signalb.
  set (p := Spec.count_of "positive" text).
  set (n := Spec.count_of "negative" text).
  set (c := Spec.count_of "complex" text).
  clearbody p n c.
  rewrite !andb_true_iff, orb_true_iff, !negb_true_iff, !Nat.eqb_neq, Z.ltb_lt.
  tauto.
Qed.

Lemma app_emotion_closed text :
  loopchamber_app.MemoryScorer.emotion_of text
  = if Spec.mixed_signalb text then "complex" else Spec.first_highest_of text.
Proof.
  unfold loopchamber_app.MemoryScorer.emotion_of.
  rewrite emotion_counts_closed, find_dominant_first.
  cbn [dict_get String.eqb Ascii.eqb Bool.eqb].
  unfold Spec.mixed_signalb, Spec.first_highest_of.
  set (p := Spec.count_of "positive" text).
  set (n := Spec.count_of "negative" text).
  set (c := Spec.count_of "complex" text).
  destruct p, n, c; reflexivity.
Qed.

Lemma simplified_emotion_closed text :
  memory_scorer.MemoryScorer.emotion_of text = Spec.first_highest_of text.
Proof.
  unfold memory_scorer.MemoryScorer.emotion_of, Spec.first_highest_of.
  rewrite emotion_counts_closed. apply find_dominant_first.
Qed.

Lemma first_highest_label p n u c :
  In (Spec.first_highest p n u c) ["positive"; "negative"; "neutral"; "complex"].
Proof.
  unfold Spec.first_highest.
  repeat match goal with |- context [if ?b then _ else _] => destruct b end;
    simpl; auto.
Qed.

End Emotion.

(* ================================================================== *)
(** ** The ids of [add_memory] *)
(* ================================================================== *)

Section Ids.

Import PyStr.
Import loopchamber_app.

Lemma uint_string_no_underscore d :
  count_char "_" (NilEmpty.string_of_uint d) = 0%nat.
Proof. induction d; simpl; auto. Qed.

Lemma str_of_int_no_underscore z : count_char "_" (str_of_int z) = 0%nat.
Proof.
  unfold str_of_int, NilZero.string_of_int, NilZero.string_of_uint.
  destruct (Z.to_int z) as [d | d]; destruct d; simpl;
    try reflexivity; apply uint_string_no_underscore.
Qed.

Lemma to_int_not_nil z : Z.to_int z <> Decimal.Pos Decimal.Nil /\ Z.to_int z <> Decimal.Neg Decimal.Nil.
Proof.
  destruct z as [|p|p]; simpl; split; try discriminate;
    intros [= H]; now apply Unsigned.to_uint_nonnil in H.
Qed.

Lemma str_of_int_inj a b : str_of_int a = str_of_int b -> a = b.
Proof.
  unfold str_of_int. intros H.
  apply (f_equal NilZero.int_of_string) in H.
  destruct (to_int_not_nil a) as [A1 A2], (to_int_not_nil b) as [B1 B2].
  rewrite !NilZero.isi in H by assumption.
  injection H as H. apply (f_equal Z.of_int) in H.
  now rewrite !DecimalZ.of_to in H.
Qed.

Lemma append_underscore_inj a b r1 r2 :
  count_char "_" a = 0%nat -> count_char "_" b = 0%nat ->
  a ++ "_" ++ r1 = b ++ "_" ++ r2 -> a = b /\ r1 = r2.
Proof.
  revert b. induction a as [|c a IH]; intros [|d b] Ha Hb H; simpl in *.
  - injection H as H. auto.
  - injection H as Hc _. subst d. discriminate.
  - injection H as Hc _. subst c. discriminate.
  - injection H as Hc H. subst d.
    apply Nat.eq_add_0 in Ha as [_ Ha]. apply Nat.eq_add_0 in Hb as [_ Hb].
    destruct (IH b Ha Hb H) as [-> ->]. auto.
Qed.

Lemma make_id_eq_iff w1 w2 :
  MemoryStore.make_id w1 = MemoryStore.make_id w2 <->
  MemoryStore.time_time w1 = MemoryStore.time_time w2 /\
  MemoryStore.randint_1000_9999 w1 = MemoryStore.randint_1000_9999 w2.
Proof.
  unfold MemoryStore.make_id. split.
  - intros H. simpl in H. injection H as H.
    apply append_underscore_inj in H; try apply str_of_int_no_underscore.
    destruct H as [H1 H2]. split; apply str_of_int_inj; assumption.
  - intros [-> ->]. reflexivity.
Qed.

End Ids.

(* ================================================================== *)
(** ** Ranges of the numeric attributes *)
(* ================================================================== *)

Section Ranges.

Import PyStr PyFloat Lexicon Core.
Import loopchamber_app.
Local Open Scope Q_scope.

Lemma in_range_spec lo hi x : in_range lo hi x = true -> lo <= x /\ x <= hi.
Proof.
  unfold in_range, fleb. rewrite andb_true_iff, !Qle_bool_iff. tauto.
Qed.

Lemma emotional_words_le text :
  (fold_left (fun n category =>
                n + count_found (dict_get emotional_lexicons category []) text)
             ["positive"; "negative"; "complex"]%string 0 <= 47)%nat.
Proof.
  cbn [fold_left].
  pose proof (count_found_le (dict_get emotional_lexicons "positive" []) text) as Hp.
  pose proof (count_found_le (dict_get emotional_lexicons "negative" []) text) as Hn.
  pose proof (count_found_le (dict_get emotional_lexicons "complex" []) text) as Hc.
  change (List.length (dict_get emotional_lexicons "positive" [])) with 19%nat in Hp.
  change (List.length (dict_get emotional_lexicons "negative" [])) with 18%nat in Hn.
  change (List.length (dict_get emotional_lexicons "complex" [])) with 10%nat in Hc.
  lia.
Qed.

Lemma tempo_closed text memory_type :
  MemoryScorer.tempo_of text memory_type
  = tempo_core (count_char "?"%char text)
      (fold_left (fun n category =>
                    (n + count_found (dict_get emotional_lexicons category []) text)%nat)
                 ["positive"; "negative"; "complex"]%string 0%nat)
      (dict_get tempo_type_weights (lower memory_type) (lit 5 10)).
Proof.
  unfold MemoryScorer.tempo_of, tempo_core, capped_factor. reflexivity.
Qed.

Lemma simplified_tempo_closed text memory_type :
  memory_scorer.MemoryScorer.tempo_of text memory_type
  = tempo_core_simplified (count_char "?"%char text)
      (dict_get tempo_type_weights (lower memory_type) (lit 5 10)).
Proof.
  unfold memory_scorer.MemoryScorer.tempo_of, tempo_core_simplified, capped_factor.
  reflexivity.
Qed.

Lemma pitch_closed word_count memory_type :
  pitch_of word_count memory_type
  = pitch_core word_count (dict_get type_weights (lower memory_type) (lit 5 10)).
Proof. unfold pitch_of, pitch_core, length_factor. reflexivity. Qed.

(** Ranges of the three numbers, for each copy. *)
Lemma app_ranges text memory_type history :
  (0 <= round2 (pitch_of (List.length (split text)) memory_type) <= 1)
  /\ (lit 1 10 <= round2 (MemoryScorer.dissonance_of text history) <= lit 9 10)
  /\ (0 <= round2 (MemoryScorer.tempo_of text memory_type) <= 1).
Proof.
  rewrite pitch_closed, dissonance_closed, tempo_closed.
  destruct (pitch_core_ok (List.length (split text)) _ _
              (type_factor_pair memory_type)) as [_ HP].
  destruct (dissonance_core_ok (Spec.signals_found text)
              (Spec.sharing_entries text history)
              (signals_found_le _) (sharing_entries_le _ _)) as [_ HD].
  destruct (tempo_core_ok (count_char "?"%char text) _ _
              (tempo_factor_in memory_type) (emotional_words_le text)) as [HT _].
  apply in_range_spec in HP, HD, HT. auto.
Qed.

Lemma simplified_ranges text memory_type :
  (0 <= round2 (pitch_of (List.length (split text)) memory_type) <= 1)
  /\ (lit 1 10 <= round2 (memory_scorer.MemoryScorer.dissonance_of text) <= lit 9 10)
  /\ (0 <= round2 (memory_scorer.MemoryScorer.tempo_of text memory_type) <= 1).
Proof.
  rewrite pitch_closed, simplified_dissonance_closed, simplified_tempo_closed.
  destruct (pitch_core_ok (List.length (split text)) _ _
              (type_factor_pair memory_type)) as [_ HP].
  pose proof (dissonance_core_simplified_ok (Spec.signals_found text)
                (signals_found_le _)) as HD.
  destruct (tempo_core_ok (count_char "?"%char text) 0 _
              (tempo_factor_in memory_type) ltac:(lia)) as [_ HT].
  apply in_range_spec in HP, HD, HT. auto.
Qed.

Lemma app_dissonance_at_least content memory_type history :
  lit 1 10 <= dissonance (MemoryScorer.score_memory content memory_type history).
Proof.
  unfold MemoryScorer.score_memory. cbn [dissonance].
  apply (app_ranges (lower content) memory_type history).
Qed.

End Ranges.

(* ================================================================== *)
(** ** The scorer: emotion *)
(* ================================================================== *)

Section EmotionClaims.

Import PyStr PyFloat Lexicon Core.
Import loopchamber_app.

(** A category whose count is strictly above the three others wins in both
    copies' max-count loop. *)
Lemma strictly_highest_wins p n u c :
  ((n < p /\ u < p /\ c < p -> Spec.first_highest p n u c = "positive") /\
   (p < n /\ u < n /\ c < n -> Spec.first_highest p n u c = "negative") /\
   (p < u /\ n < u /\ c < u -> Spec.first_highest p n u c = "neutral") /\
   (p < c /\ n < c /\ u < c -> Spec.first_highest p n u c = "complex"))%nat.
Proof.
  unfold Spec.first_highest.
  repeat split; intros H; repeat split_eqb; try reflexivity; lia.
Qed.

(** C1, counterexample: the simplified scorer of [memory_scorer.py] has no
    mixed-signal override.  On "I love this but I also feel anxious" the
    positive and the negative counts are both 1, and it returns "positive",
    the first category that reaches the highest count. *)
Lemma C1_simplified_scorer_keeps_max_count :
  Spec.mixed_signal (lower "I love this but I also feel anxious")
  /\ emotion (memory_scorer.MemoryScorer.score_memory
                "I love this but I also feel anxious" "insight" None)
     = "positive"
  /\ ~ Spec.mixed_gives_complex memory_scorer.MemoryScorer.score_memory.
Proof.
  assert (M : Spec.mixed_signal (lower "I love this but I also feel anxious"))
    by (apply mixed_signal_iff; vm_compute; reflexivity).
  assert (E : emotion (memory_scorer.MemoryScorer.score_memory
                         "I love this but I also feel anxious" "insight" None)
              = "positive") by (vm_compute; reflexivity).
  split; [exact M | split; [exact E |]].
  intros H. specialize (H _ "insight" None M). rewrite E in H. discriminate.
Qed.

(** C1, as amended: in the scorer of [loopchamber_app.py], whenever the
    positive and the negative counts are both non-zero and the complex count
    is non-zero or the two counts differ by less than 3, the emotion is
    "complex", whatever the raw maximum.  Scoring "I love this but I also
    feel anxious" as an insight finds one positive word, one negative word
    and one contradiction signal, and yields "complex" with a dissonance of
    at least 0.1, for every history. *)
Theorem C1_mixed_signal_override :
  (forall content memory_type history,
      Spec.mixed_signal (lower content) ->
      emotion (MemoryScorer.score_memory content memory_type history) = "complex")
  /\ (let content := "I love this but I also feel anxious" in
      Spec.count_of "positive" (lower content) = 1%nat
      /\ Spec.count_of "negative" (lower content) = 1%nat
      /\ Spec.signals_found (lower content) = 1%nat
      /\ forall history,
           emotion (MemoryScorer.score_memory content "insight" history) = "complex"
           /\ (lit 1 10 <= dissonance (MemoryScorer.score_memory content "insight" history))%Q).
Proof.
  assert (G : forall content memory_type history,
             Spec.mixed_signal (lower content) ->
             emotion (MemoryScorer.score_memory content memory_type history) = "complex").
  { intros content memory_type history H.
    apply mixed_signal_iff in H.
    unfold MemoryScorer.score_memory. cbn [emotion].
    now rewrite app_emotion_closed, H. }
  split; [exact G|].
  cbv zeta.
  split; [vm_compute; reflexivity|].
  split; [vm_compute; reflexivity|].
  split; [vm_compute; reflexivity|].
  intros history. split.
  - apply G. apply mixed_signal_iff. vm_compute. reflexivity.
  - apply app_dissonance_at_least.
Qed.

Lemma C1_mixed_signal_override_witness :
  Spec.mixed_signal (lower "Happy yet worried")
  /\ emotion (MemoryScorer.score_memory "Happy yet worried" "event" None) = "complex".
Proof.
  assert (M : Spec.mixed_signal (lower "Happy yet worried")).
  { unfold Spec.mixed_signal. vm_compute. repeat split; try discriminate.
    right. reflexivity. }
  split; [exact M | exact (proj1 C1_mixed_signal_override _ "event" None M)].
Defined.

(** C2, counterexample: in "happy think" the positive and the neutral counts
    tie at 1, the highest value, and both copies return "positive". *)
Lemma C2_tie_goes_to_first_category :
  Spec.tie_at_top (lower "happy think")
  /\ emotion (MemoryScorer.score_memory "happy think" "event" None) = "positive"
  /\ emotion (memory_scorer.MemoryScorer.score_memory "happy think" "event" None)
     = "positive"
  /\ ~ Spec.ties_give_neutral MemoryScorer.score_memory
  /\ ~ Spec.ties_give_neutral memory_scorer.MemoryScorer.score_memory.
Proof.
  assert (T : Spec.tie_at_top (lower "happy think")) by (vm_compute; lia).
  assert (E1 : emotion (MemoryScorer.score_memory "happy think" "event" None)
               = "positive") by (vm_compute; reflexivity).
  assert (E2 : emotion (memory_scorer.MemoryScorer.score_memory
                          "happy think" "event" None) = "positive")
    by (vm_compute; reflexivity).
  split; [exact T | split; [exact E1 | split; [exact E2 | split]]].
  - intros H. specialize (H _ "event" None T). rewrite E1 in H. discriminate.
  - intros H. specialize (H _ "event" None T). rewrite E2 in H. discriminate.
Qed.

(** C2, as amended: the max-count loop returns the first category, in the
    order positive, negative, neutral, complex, whose count equals the
    highest count, and "neutral" when every count is zero; so a tie at the
    top goes to the earliest tied category.  The simplified scorer returns
    that label; the scorer of [loopchamber_app.py] returns it unless the
    mixed-signal override applies, and "complex" then. *)
Theorem C2_dominant_emotion_rule content memory_type history :
  emotion (memory_scorer.MemoryScorer.score_memory content memory_type history)
  = Spec.first_highest_of (lower content)
  /\ emotion (MemoryScorer.score_memory content memory_type history)
     = if Spec.mixed_signalb (lower content) then "complex"
       else Spec.first_highest_of (lower content).
Proof.
  split.
  - unfold memory_scorer.MemoryScorer.score_memory. cbn [emotion].
    apply simplified_emotion_closed.
  - unfold MemoryScorer.score_memory. cbn [emotion].
    apply app_emotion_closed.
Qed.

End EmotionClaims.

(* ================================================================== *)
(** ** The scorer: numeric attributes *)
(* ================================================================== *)

Section NumericClaims.

Import PyStr PyFloat Lexicon Core.
Import loopchamber_app.
Local Open Scope Q_scope.

(** The history is cut to its last five entries before the comparison. *)
Example last_five_only :
  dissonance (MemoryScorer.score_memory "jazz but loud" "event"
                (Some [Some "jazz"; None; None; None; None; None])) = lit 15 100
  /\ dissonance (MemoryScorer.score_memory "jazz but loud" "event"
                   (Some [Some "Jazz club"])) = lit 35 100.
Proof. split; vm_compute; reflexivity. Qed.

(** C3: the dissonance returned by the scorer of [loopchamber_app.py] is the
    float of the decimal
    [clamp (min(0.8, 0.15 n) + bonus, 0.1, 0.9)] rounded to two places,
    where [n] counts the contradiction signals found in the lowered text and
    the bonus is 0.2 for each of the last five history entries that shares a
    token with it, counted only when [n >= 1]. *)
Theorem C3_dissonance_formula content memory_type history :
  dissonance (MemoryScorer.score_memory content memory_type history)
  = RNE (Spec.dissonance (lower content) history).
Proof.
  unfold MemoryScorer.score_memory. cbn [dissonance].
  rewrite dissonance_closed. unfold Spec.dissonance.
  apply dissonance_core_ok;
    [apply signals_found_le | apply sharing_entries_le].
Qed.

(** C4: in both copies the pitch is the float of the decimal
    [0.4 * clamp (word_count / 100, 0.1, 1.0) + 0.6 * type_factor] rounded to
    two places, with the type factor of the table (0.5 for a type that is
    not in it). *)
Theorem C4_pitch_formula content memory_type history :
  let word_count := List.length (split (lower content)) in
  pitch (MemoryScorer.score_memory content memory_type history)
  = RNE (Spec.pitch word_count memory_type)
  /\ pitch (memory_scorer.MemoryScorer.score_memory content memory_type history)
     = RNE (Spec.pitch word_count memory_type).
Proof.
  intros word_count.
  unfold MemoryScorer.score_memory, memory_scorer.MemoryScorer.score_memory.
  cbn [pitch]. fold word_count.
  destruct (pitch_core_ok word_count _ _ (type_factor_pair memory_type)) as [H _].
  split; exact H.
Qed.

(** C7: for every content, type and history, in both copies, pitch and
    tempo lie in [0.0, 1.0], the dissonance lies between the floats 0.1 and
    0.9 (hence in [0.0, 1.0]), and the emotion is one of the four labels. *)
Theorem C7_attribute_ranges content memory_type history :
  let labels := ["positive"; "negative"; "neutral"; "complex"]%string in
  let r := MemoryScorer.score_memory content memory_type history in
  let r' := memory_scorer.MemoryScorer.score_memory content memory_type history in
  (0 <= pitch r <= 1)
  /\ (lit 1 10 <= dissonance r <= lit 9 10)
  /\ (0 <= dissonance r <= 1)
  /\ (0 <= tempo r <= 1)
  /\ In (emotion r) labels
  /\ (0 <= pitch r' <= 1)
  /\ (lit 1 10 <= dissonance r' <= lit 9 10)
  /\ (0 <= dissonance r' <= 1)
  /\ (0 <= tempo r' <= 1)
  /\ In (emotion r') labels.
Proof.
  intros labels r r'.
  assert (L1 : 0 < lit 1 10) by reflexivity.
  assert (L9 : lit 9 10 < 1) by reflexivity.
  destruct (app_ranges (lower content) memory_type history) as (HP & HD & HT).
  destruct (simplified_ranges (lower content) memory_type) as (HP' & HD' & HT').
  subst r r'.
  unfold MemoryScorer.score_memory, memory_scorer.MemoryScorer.score_memory.
  cbn [pitch dissonance tempo emotion].
  rewrite app_emotion_closed, simplified_emotion_closed.
  set (d := round2 (MemoryScorer.dissonance_of (lower content) history)) in *.
  set (d' := round2 (memory_scorer.MemoryScorer.dissonance_of (lower content))) in *.
  clearbody d d'.
  assert (HE : In (Spec.first_highest_of (lower content)) labels)
    by apply first_highest_label.
  repeat split; try tauto; try lra.
  destruct (Spec.mixed_signalb (lower content)); [simpl; auto | exact HE].
Qed.

(** C8: scoring the empty string as an event, with no history or an empty
    one, returns pitch 0.34 (the rounding of 0.1 * 0.4 + 0.5 * 0.6),
    dissonance 0.1, emotion "neutral" and tempo 0.16, the rounding of the
    type term 0.4 * 0.4 alone; and for every type and every history the empty
    string is scored with dissonance 0.1 and emotion "neutral". *)
Theorem C8_empty_string :
  let expected :=
    {| pitch := lit 34 100; dissonance := lit 1 10;
       tempo := lit 16 100; emotion := "neutral" |} in
  MemoryScorer.score_memory "" "event" None = expected
  /\ MemoryScorer.score_memory "" "event" (Some []) = expected
  /\ lit 34 100 = round2 (fadd (fmul (lit 1 10) (lit 4 10)) (fmul (lit 5 10) (lit 6 10)))
  /\ lit 16 100 = round2 (fmul (lit 4 10) (lit 4 10))
  /\ forall memory_type history,
       dissonance (MemoryScorer.score_memory "" memory_type history) = lit 1 10
       /\ emotion (MemoryScorer.score_memory "" memory_type history) = "neutral".
Proof.
  cbv zeta.
  split; [vm_compute; reflexivity|].
  split; [vm_compute; reflexivity|].
  split; [vm_compute; reflexivity|].
  split; [vm_compute; reflexivity|].
  intros memory_type history. split.
  - unfold MemoryScorer.score_memory. cbn [dissonance].
    rewrite dissonance_closed.
    change (Spec.signals_found (lower "")) with 0%nat.
    cbn [Nat.leb]. vm_compute. reflexivity.
  - vm_compute. reflexivity.
Qed.

End NumericClaims.

(* ================================================================== *)
(** ** The memory store *)
(* ================================================================== *)

Section StoreClaims.

Import PyStr PyFloat.
Import loopchamber_app.
Import MemoryStore.

Lemma do_calls_app self cs c :
  do_calls self (cs ++ [c]) = fst (do_call (do_calls self cs) c).
Proof. unfold do_calls. now rewrite fold_left_app. Qed.

Lemma do_calls_memories self cs :
  get_all_memories (do_calls self cs)
  = (get_all_memories self ++ map record_of cs)%list.
Proof.
  induction cs as [|c cs IH] using rev_ind.
  - simpl. now rewrite app_nil_r.
  - rewrite do_calls_app, map_app. simpl.
    unfold get_all_memories in *. rewrite IH, <- app_assoc. reflexivity.
Qed.

(** C5, counterexample: two successive calls in the same clock second that
    draw the same suffix return the same id, and the store then holds two
    records with that id. *)
Lemma C5_same_second_same_draw :
  let w1 := {| time_time := 1700000000; randint_1000_9999 := 4821;
               now_isoformat := "2023-11-14T22:13:20.100000" |} in
  let w2 := {| time_time := 1700000000; randint_1000_9999 := 4821;
               now_isoformat := "2023-11-14T22:13:20.900000" |} in
  let '(s1, id1) := add_memory init w1 "first" "event" (1 # 2) (1 # 10) (1 # 5) "neutral" in
  let '(s2, id2) := add_memory s1 w2 "second" "event" (1 # 2) (1 # 10) (1 # 5) "neutral" in
  id1 = "mem_1700000000_4821" /\ id2 = id1
  /\ map id (get_all_memories s2) = [id1; id1]
  /\ ~ NoDup (map id (get_all_memories s2)).
Proof.
  cbv zeta. vm_compute.
  split; [reflexivity | split; [reflexivity | split; [reflexivity|]]].
  intros H. inversion H as [|x l Hin _]. apply Hin. left. reflexivity.
Qed.

(** C5, as amended: the id is "mem_", the clock reading in whole seconds,
    "_" and the random suffix; two calls of [add_memory], on whatever stores
    and with whatever arguments, return the same id exactly when they read
    the same second and draw the same suffix.  Nothing compares a new id
    with the stored ones. *)
Theorem C5_ids_differ_iff_clock_or_draw
    self1 self2 w1 w2 c1 t1 p1 d1 m1 e1 c2 t2 p2 d2 m2 e2 :
  snd (add_memory self1 w1 c1 t1 p1 d1 m1 e1)
  = snd (add_memory self2 w2 c2 t2 p2 d2 m2 e2)
  <-> time_time w1 = time_time w2
      /\ randint_1000_9999 w1 = randint_1000_9999 w2.
Proof. unfold add_memory. cbn [snd]. apply make_id_eq_iff. Qed.

(** C9: [add_memory] appends exactly one record, built from its arguments,
    at the end of the collection; every record stored before is still there,
    at the same position and unchanged; and after any sequence of calls
    [get_all_memories] returns the records in the order of the calls. *)
Theorem C9_add_memory_appends self w content memory_type p d t e :
  let self' := fst (add_memory self w content memory_type p d t e) in
  get_all_memories self'
  = (get_all_memories self
     ++ [ {| id := snd (add_memory self w content memory_type p d t e);
             content := content; type := memory_type;
             created_at := now_isoformat w;
             attributes := {| pitch := p; dissonance := d; tempo := t;
                              emotion := e |} |} ])%list
  /\ List.length (get_all_memories self') = S (List.length (get_all_memories self))
  /\ (forall i m, nth_error (get_all_memories self) i = Some m ->
                  nth_error (get_all_memories self') i = Some m)
  /\ (forall cs, get_all_memories (do_calls init cs) = map record_of cs).
Proof.
  cbv zeta. unfold add_memory, get_all_memories. cbn [fst snd memories].
  split; [reflexivity|]. split; [|split].
  - rewrite length_app. simpl. lia.
  - intros i m H. rewrite nth_error_app1; [exact H|].
    apply nth_error_Some. congruence.
  - intros cs. apply (do_calls_memories init cs).
Qed.

(** C10: [add_memory] checks none of its arguments: whatever the three
    numbers and the emotion string are, the call returns an id and the
    record it stores, the last one, carries exactly these values. *)
Theorem C10_add_memory_stores_verbatim self w content memory_type p d t e :
  exists m,
    nth_error (get_all_memories (fst (add_memory self w content memory_type p d t e)))
              (List.length (get_all_memories self)) = Some m
    /\ id m = snd (add_memory self w content memory_type p d t e)
    /\ attributes m
       = {| pitch := p; dissonance := d; tempo := t; emotion := e |}.
Proof.
  eexists. unfold add_memory, get_all_memories. cbn [fst snd memories].
  rewrite nth_error_app2 by lia. rewrite Nat.sub_diag. simpl.
  split; [reflexivity|]. split; reflexivity.
Qed.

(** Values outside the declared ranges are stored as they are. *)
Example out_of_range_attributes_are_stored :
  let w := {| time_time := 1700000000; randint_1000_9999 := 1000;
              now_isoformat := "2023-11-14T22:13:20" |} in
  map attributes
      (get_all_memories
         (fst (add_memory init w "x" "event" (7 # 1) (- (3 # 1)) (250 # 1) "tense")))
  = [ {| pitch := 7 # 1; dissonance := - (3 # 1); tempo := 250 # 1;
         emotion := "tense" |} ].
Proof. reflexivity. Qed.

End StoreClaims.

(* ================================================================== *)
(** ** Connections *)
(* ================================================================== *)

Section ConnectionClaims.

Import loopchamber_app.
Import GraphStore.

Lemma string_length_append (a b : string) :
  String.length (a ++ b) = (String.length a + String.length b)%nat.
Proof. induction a as [|c a IH]; simpl; [reflexivity | now rewrite IH]. Qed.









End ConnectionClaims.

(* ================================================================== *)
(** ** Further properties of the scorer *)
(* ================================================================== *)

Section ScorerCase.

Import PyStr PyFloat Lexicon Core.
Import loopchamber_app.

Lemma lower_char_idempotent c : lower_char (lower_char c) = lower_char c.
Proof. destruct c as [[] [] [] [] [] [] [] []]; reflexivity. Qed.

Lemma lower_idempotent s : lower (lower s) = lower s.
Proof.
  induction s as [|c s IH]; simpl; [reflexivity|].
  now rewrite lower_char_idempotent, IH.
Qed.

Lemma last_n_map {A B} (f : A -> B) n (l : list A) :
  last_n n (map f l) = map f (last_n n l).
Proof. unfold last_n. now rewrite length_map, skipn_map. Qed.

Lemma shares_token_lowered text e :
  Spec.shares_token text (option_map lower e) = Spec.shares_token text e.
Proof. destruct e as [c|]; simpl; [now rewrite lower_idempotent | reflexivity]. Qed.

Lemma filter_map_length {A B} (f : A -> B) (P : B -> bool) (l : list A) :
  List.length (filter P (map f l)) = List.length (filter (fun x => P (f x)) l).
Proof.
  induction l as [|x l IH]; simpl; [reflexivity|].
  destruct (P (f x)); simpl; now rewrite IH.
Qed.

Lemma sharing_entries_lowered text h1 h2 :
  map (option_map lower) (Spec.history_list h1)
  = map (option_map lower) (Spec.history_list h2) ->
  Spec.sharing_entries text h1 = Spec.sharing_entries text h2.
Proof.
  intros H. unfold Spec.sharing_entries.
  rewrite <- (filter_ext _ _ (shares_token_lowered text)).
  rewrite <- (filter_ext _ _ (shares_token_lowered text)) at 1.
  rewrite <- !(filter_map_length (option_map lower) (Spec.shares_token text)).
  now rewrite <- !last_n_map, H.
Qed.

(** X1: the scores depend on the content, on the type and on the contents
    of the history only through their lower-cased forms. *)
Theorem score_memory_case_insensitive c1 c2 t1 t2 h1 h2 :
  lower c1 = lower c2 -> lower t1 = lower t2 ->
  map (option_map lower) (Spec.history_list h1)
  = map (option_map lower) (Spec.history_list h2) ->
  MemoryScorer.score_memory c1 t1 h1 = MemoryScorer.score_memory c2 t2 h2
  /\ memory_scorer.MemoryScorer.score_memory c1 t1 h1
     = memory_scorer.MemoryScorer.score_memory c2 t2 h2.
Proof.
  intros Hc Ht Hh.
  unfold MemoryScorer.score_memory, memory_scorer.MemoryScorer.score_memory.
  rewrite Hc.
  unfold pitch_of, MemoryScorer.tempo_of, memory_scorer.MemoryScorer.tempo_of.
  rewrite Ht.
  rewrite !dissonance_closed, (sharing_entries_lowered (lower c2) h1 h2 Hh).
  split; reflexivity.
Qed.

Lemma score_memory_case_insensitive_witness :
  MemoryScorer.score_memory "Jazz BUT Loud?" "INSIGHT" (Some [Some "JAZZ"])
  = MemoryScorer.score_memory "jazz but loud?" "insight" (Some [Some "jazz"]).
Proof.
  apply (score_memory_case_insensitive
           "Jazz BUT Loud?" "jazz but loud?" "INSIGHT" "insight"
           (Some [Some "JAZZ"]) (Some [Some "jazz"])); reflexivity.
Defined.

End ScorerCase.

Section ScorerDissonance.

Import PyStr PyFloat Lexicon Core.
Import loopchamber_app.
Local Open Scope Q_scope.

Lemma Q_eqb_neq a b : Q_eqb a b = false -> a <> b.
Proof.
  intros H E. subst b. unfold Q_eqb in H.
  now rewrite Z.eqb_refl, Pos.eqb_refl in H.
Qed.

(** What the finite check below establishes, for one pair of counts. *)
Lemma dissonance_facts (d d0 ds lo mid : Q) (m : nat -> Q) (n : nat) :
  Bool.eqb (Q_eqb d lo) (n =? 0)%nat
  && ((n =? 0)%nat || fleb mid d)
  && fleb d0 d
  && Q_eqb d0 ds
  && existsb (fun j => Q_eqb d (m j)) (seq 2 17) = true ->
  (d = lo <-> n = 0%nat)
  /\ (n <> 0%nat -> mid <= d)
  /\ d0 <= d
  /\ d0 = ds
  /\ exists j, (2 <= j <= 18)%nat /\ d = m j.
Proof.
  intros H.
  apply andb_true_iff in H as [H H5]. apply andb_true_iff in H as [H H4].
  apply andb_true_iff in H as [H H3]. apply andb_true_iff in H as [H1 H2].
  split; [|split; [|split; [|split]]].
  - destruct (Nat.eqb_spec n 0) as [E | NE].
    + apply eqb_prop in H1. apply Q_eqb_eq in H1. tauto.
    + destruct (Q_eqb d lo) eqn:E; [discriminate|].
      apply Q_eqb_neq in E. tauto.
  - intros NE. destruct (Nat.eqb_spec n 0); [contradiction|].
    simpl in H2. apply Qle_bool_iff in H2. exact H2.
  - apply Qle_bool_iff in H3. exact H3.
  - apply Q_eqb_eq in H4. exact H4.
  - apply existsb_exists in H5 as (j & Hj & E).
    apply in_seq in Hj. apply Q_eqb_eq in E. exists j. split; [lia | exact E].
Qed.

(** The finite check behind the statements below, for every number of
    signals and of sharing entries: the floor exactly when there is no
    signal, at least 0.15 otherwise; the history never lowers the value;
    without history, the value of the simplified copy; a multiple of 0.05. *)
Lemma dissonance_values_checked :
  all_below 17 (fun n =>
    all_below 6 (fun k =>
      let d := round2 (dissonance_core n (if (1 <=? n)%nat then k else 0%nat)) in
      let d0 := round2 (dissonance_core n 0) in
      Bool.eqb (Q_eqb d (lit 1 10)) (n =? 0)%nat
      && ((n =? 0)%nat || fleb (lit 15 100) d)
      && fleb d0 d
      && Q_eqb d0 (round2 (dissonance_core_simplified n))
      && existsb (fun j => Q_eqb d (lit (5 * Z.of_nat j) 100)) (seq 2 17)))
  = true.
Proof. vm_compute. reflexivity. Qed.

Lemma dissonance_values n k :
  (n <= 16)%nat -> (k <= 5)%nat ->
  (round2 (dissonance_core n (if (1 <=? n)%nat then k else 0%nat)) = lit 1 10
   <-> n = 0%nat)
  /\ (n <> 0%nat ->
      lit 15 100 <= round2 (dissonance_core n (if (1 <=? n)%nat then k else 0%nat)))
  /\ round2 (dissonance_core n 0)
     <= round2 (dissonance_core n (if (1 <=? n)%nat then k else 0%nat))
  /\ round2 (dissonance_core n 0) = round2 (dissonance_core_simplified n)
  /\ exists j, (2 <= j <= 18)%nat
       /\ round2 (dissonance_core n (if (1 <=? n)%nat then k else 0%nat))
          = lit (5 * Z.of_nat j) 100.
Proof.
  intros Hn Hk.
  assert (Hn' : (n < 17)%nat) by lia. assert (Hk' : (k < 6)%nat) by lia.
  apply (dissonance_facts _ _ _ _ _ (fun j => lit (5 * Z.of_nat j) 100) n).
  exact (all_below_spec _ _ k
           (all_below_spec _ _ n dissonance_values_checked Hn') Hk').
Qed.

Lemma no_signal_iff text :
  Spec.signals_found text = 0%nat <-> any_signal text = false.
Proof.
  rewrite any_signal_found.
  destruct (Spec.signals_found text); simpl; split; congruence.
Qed.

(** X2: the dissonance is at its floor 0.1 exactly when the lowered text
    contains no contradiction signal, whatever the history; with a signal it
    is at least 0.15.  The same holds in the simplified copy. *)
Theorem dissonance_floor_iff_no_signal content memory_type history :
  let r := MemoryScorer.score_memory content memory_type history in
  let r' := memory_scorer.MemoryScorer.score_memory content memory_type history in
  (dissonance r = lit 1 10 <-> any_signal (lower content) = false)
  /\ (any_signal (lower content) = true -> lit 15 100 <= dissonance r)
  /\ (dissonance r' = lit 1 10 <-> any_signal (lower content) = false)
  /\ (any_signal (lower content) = true -> lit 15 100 <= dissonance r').
Proof.
  intros r r'. subst r r'.
  unfold MemoryScorer.score_memory, memory_scorer.MemoryScorer.score_memory.
  cbn [dissonance].
  rewrite dissonance_closed, simplified_dissonance_closed.
  set (text := lower content).
  destruct (dissonance_values (Spec.signals_found text)
              (Spec.sharing_entries text history)
              (signals_found_le _) (sharing_entries_le _ _))
    as (F & L & _ & _ & _).
  destruct (dissonance_values (Spec.signals_found text) 0
              (signals_found_le _) ltac:(lia))
    as (F' & L' & _ & S & _).
  rewrite <- no_signal_iff.
  assert (Z0 : (if (1 <=? Spec.signals_found text)%nat then 0%nat else 0%nat) = 0%nat)
    by (destruct (1 <=? Spec.signals_found text)%nat; reflexivity).
  rewrite Z0 in F', L'. rewrite S in F', L'.
  assert (T : any_signal text = true -> Spec.signals_found text <> 0%nat).
  { intros A E. apply no_signal_iff in E. congruence. }
  repeat split; try tauto; intros; auto.
Qed.

(** X3: the history never lowers the dissonance: with any history it is at
    least what it is without one, and the same when none of the last five
    entries shares a token with the text. *)
Theorem history_never_lowers_dissonance content memory_type history :
  dissonance (MemoryScorer.score_memory content memory_type None)
  <= dissonance (MemoryScorer.score_memory content memory_type history)
  /\ (Spec.sharing_entries (lower content) history = 0%nat ->
      dissonance (MemoryScorer.score_memory content memory_type history)
      = dissonance (MemoryScorer.score_memory content memory_type None)).
Proof.
  unfold MemoryScorer.score_memory. cbn [dissonance].
  rewrite !dissonance_closed.
  set (text := lower content).
  change (Spec.sharing_entries text None) with 0%nat.
  assert (Z0 : (if (1 <=? Spec.signals_found text)%nat then 0%nat else 0%nat) = 0%nat)
    by (destruct (1 <=? Spec.signals_found text)%nat; reflexivity).
  rewrite Z0. split.
  - apply (dissonance_values (Spec.signals_found text)
             (Spec.sharing_entries text history)
             (signals_found_le _) (sharing_entries_le _ _)).
  - intros E. rewrite E, Z0. reflexivity.
Qed.

(** X4: the dissonance is always a multiple of 0.05 between 0.1 and 0.9. *)
Theorem dissonance_is_multiple_of_005 content memory_type history :
  exists j, (2 <= j <= 18)%nat
    /\ dissonance (MemoryScorer.score_memory content memory_type history)
       = lit (5 * Z.of_nat j) 100.
Proof.
  unfold MemoryScorer.score_memory. cbn [dissonance].
  rewrite dissonance_closed.
  apply (dissonance_values (Spec.signals_found (lower content))
           (Spec.sharing_entries (lower content) history)
           (signals_found_le _) (sharing_entries_le _ _)).
Qed.

End ScorerDissonance.

Section ScorerPitch.

Import PyStr PyFloat Lexicon Core.
Import loopchamber_app.
Local Open Scope Q_scope.

Lemma pitch_step_facts (x y x0 lo hi : Q) (w : nat) :
  fleb x y && fleb lo x && fleb x hi && ((10 <? w)%nat || Q_eqb x x0) = true ->
  x <= y /\ lo <= x /\ x <= hi /\ ((w <= 10)%nat -> x = x0).
Proof.
  intros H.
  apply andb_true_iff in H as [H H4]. apply andb_true_iff in H as [H H3].
  apply andb_true_iff in H as [H1 H2].
  apply Qle_bool_iff in H1, H2, H3.
  repeat split; try assumption.
  intros Hw. destruct (Nat.ltb_spec 10 w); [lia|].
  simpl in H4. apply Q_eqb_eq in H4. exact H4.
Qed.

(** The finite check on the pitch: from each word count up to 100 to the
    next the pitch does not decrease; it lies between 0.34 and 0.88; up to
    ten words it is the pitch of the empty text. *)
Lemma pitch_steps_checked :
  all_below 101 (fun w =>
    forallb (fun p =>
               fleb (round2 (pitch_core w (fst p))) (round2 (pitch_core (S w) (fst p)))
               && fleb (lit 34 100) (round2 (pitch_core w (fst p)))
               && fleb (round2 (pitch_core w (fst p))) (lit 88 100)
               && ((10 <? w)%nat
                   || Q_eqb (round2 (pitch_core w (fst p)))
                            (round2 (pitch_core 0 (fst p)))))
            pitch_factors) = true.
Proof. vm_compute. reflexivity. Qed.

Lemma pitch_step w tf tfs :
  In (tf, tfs) pitch_factors ->
  round2 (pitch_core w tf) <= round2 (pitch_core (S w) tf)
  /\ lit 34 100 <= round2 (pitch_core w tf)
  /\ round2 (pitch_core w tf) <= lit 88 100
  /\ ((w <= 10)%nat -> round2 (pitch_core w tf) = round2 (pitch_core 0 tf)).
Proof.
  intros Hin.
  destruct (Nat.lt_ge_cases w 101) as [Hlt | Hge].
  - pose proof (all_below_spec _ _ w pitch_steps_checked Hlt) as H.
    cbv beta in H. rewrite forallb_forall in H. specialize (H _ Hin).
    apply pitch_step_facts. exact H.
  - assert (H100 : (100 < 101)%nat) by lia.
    pose proof (all_below_spec _ _ 100%nat pitch_steps_checked H100) as H.
    cbv beta in H. rewrite forallb_forall in H. specialize (H _ Hin).
    apply pitch_step_facts in H. cbn [fst] in H.
    destruct H as (_ & H2 & H3 & _).
    rewrite (pitch_core_saturates w tf) by lia.
    rewrite (pitch_core_saturates (S w) tf) by lia.
    repeat split; try assumption; [apply Qle_refl | lia].
Qed.

Lemma pitch_core_monotone w1 w2 tf tfs :
  In (tf, tfs) pitch_factors -> (w1 <= w2)%nat ->
  round2 (pitch_core w1 tf) <= round2 (pitch_core w2 tf).
Proof.
  intros Hin Hle. induction Hle as [|w2 Hle IH]; [apply Qle_refl|].
  eapply Qle_trans; [exact IH|]. apply (pitch_step w2 tf tfs Hin).
Qed.

(** X5: for one type, a content with at least as many words gets at least
    as high a pitch, in both copies. *)
Theorem pitch_grows_with_word_count c1 c2 memory_type h1 h2 :
  (List.length (split (lower c1)) <= List.length (split (lower c2)))%nat ->
  pitch (MemoryScorer.score_memory c1 memory_type h1)
  <= pitch (MemoryScorer.score_memory c2 memory_type h2)
  /\ pitch (memory_scorer.MemoryScorer.score_memory c1 memory_type h1)
     <= pitch (memory_scorer.MemoryScorer.score_memory c2 memory_type h2).
Proof.
  intros H.
  unfold MemoryScorer.score_memory, memory_scorer.MemoryScorer.score_memory.
  cbn [pitch]. rewrite !pitch_closed.
  split; apply (pitch_core_monotone _ _ _ _ (type_factor_pair memory_type) H).
Qed.

Lemma pitch_grows_with_word_count_witness :
  pitch (MemoryScorer.score_memory "jazz" "event" None)
  <= pitch (MemoryScorer.score_memory
              "one two three four five six seven eight nine ten eleven twelve"
              "event" None).
Proof.
  apply (pitch_grows_with_word_count
           "jazz" "one two three four five six seven eight nine ten eleven twelve"
           "event" None None).
  vm_compute. lia.
Defined.

(** X6: the pitch lies between 0.34 and 0.88; a content of at most ten
    words gets the pitch of the empty content, and every content of a
    hundred words or more gets the same pitch, the rounding of
    [1.0 * 0.4 + type_factor * 0.6]. *)
Theorem pitch_floor_and_cap content memory_type history :
  let r := MemoryScorer.score_memory content memory_type history in
  let word_count := List.length (split (lower content)) in
  (lit 34 100 <= pitch r /\ pitch r <= lit 88 100)
  /\ ((word_count <= 10)%nat ->
      pitch r = pitch (MemoryScorer.score_memory "" memory_type None))
  /\ ((100 <= word_count)%nat ->
      pitch r
      = round2 (fadd (fmul (lit 1 1) (lit 4 10))
                     (fmul (dict_get type_weights (lower memory_type) (lit 5 10))
                           (lit 6 10)))).
Proof.
  intros r word_count. subst r.
  unfold MemoryScorer.score_memory. cbn [pitch]. fold word_count.
  change (List.length (split (lower ""))) with 0%nat.
  rewrite !pitch_closed.
  destruct (pitch_step word_count _ _ (type_factor_pair memory_type))
    as (_ & H2 & H3 & H4).
  split; [split; assumption|]. split; [exact H4|].
  intros H. unfold pitch_core. now rewrite (length_factor_saturates _ H).
Qed.

Lemma pitch_floor_and_cap_witness :
  pitch (MemoryScorer.score_memory "a short note" "insight" None)
  = pitch (MemoryScorer.score_memory "" "insight" None).
Proof.
  apply (pitch_floor_and_cap "a short note" "insight" None).
  vm_compute. lia.
Defined.

End ScorerPitch.

Section ScorerTempo.

Import PyStr PyFloat Lexicon Core.
Import loopchamber_app.
Local Open Scope Q_scope.

Lemma tempo_factor_pair memory_type :
  In (dict_get tempo_type_weights (lower memory_type) (lit 5 10),
      Formulas.tempo_type_factor memory_type) Formulas.tempo_factor_pairs.
Proof.
  unfold Formulas.tempo_type_factor, tempo_type_weights, dict_get,
    Formulas.tempo_factor_pairs.
  destruct (String.eqb (lower memory_type) "insight"); [simpl; auto|].
  destruct (String.eqb (lower memory_type) "question"); [simpl; auto|].
  destruct (String.eqb (lower memory_type) "observation"); [simpl; auto|].
  destruct (String.eqb (lower memory_type) "event"); [simpl; auto 6|].
  destruct (String.eqb (lower memory_type) "reflection"); simpl; auto 6.
Qed.

Lemma emotional_words_closed text :
  fold_left (fun n category =>
               (n + count_found (dict_get emotional_lexicons category []) text)%nat)
            ["positive"; "negative"; "complex"]%string 0%nat
  = Formulas.emotional_words text.
Proof.
  cbn [fold_left]. unfold Formulas.emotional_words, Spec.count_of.
  now rewrite !count_found_filter.
Qed.

Lemma emotional_words_bound text : (Formulas.emotional_words text <= 47)%nat.
Proof. rewrite <- emotional_words_closed. apply emotional_words_le. Qed.

Lemma question_cap q :
  (4 <= q)%nat -> Qmin (8 # 10) ((2 # 10) * inject_Z (Z.of_nat q)) == 8 # 10.
Proof.
  intros H. apply Q.min_l.
  assert (inject_Z 4 <= inject_Z (Z.of_nat q)) by (rewrite <- Zle_Qle; lia).
  change (inject_Z 4) with 4 in H0. lra.
Qed.

Lemma tempo_facts (x y : Q) (k : Z) (f : Q) :
  Qle_bool (Qabs (inject_Z k / 100 - f)) (1 # 200)
  && (16 <=? k)%Z && (k <=? 80)%Z && fleb x y = true ->
  Qabs (inject_Z k / 100 - f) <= 1 # 200 /\ (16 <= k <= 80)%Z /\ x <= y.
Proof.
  intros H.
  apply andb_true_iff in H as [H H4]. apply andb_true_iff in H as [H H3].
  apply andb_true_iff in H as [H1 H2].
  apply Qle_bool_iff in H1, H4.
  repeat split; try assumption; lia.
Qed.

Lemma simplified_tempo_facts (s s1 fs lo hi : Q) :
  Q_eqb s fs && fleb lo s && fleb s hi && fleb s s1 = true ->
  s = fs /\ lo <= s /\ s <= hi /\ s <= s1.
Proof.
  intros H.
  apply andb_true_iff in H as [H H4]. apply andb_true_iff in H as [H H3].
  apply andb_true_iff in H as [H1 H2].
  apply Qle_bool_iff in H2, H3, H4. apply Q_eqb_eq in H1.
  repeat split; assumption.
Qed.

(** The finite check on the tempo of [loopchamber_app.py], for every number
    of question marks up to 4, every number of emotional words and every
    type weight: the two-place decimal selected is within 0.005 of the
    three-factor formula and between 0.16 and 0.80, and one more question
    mark does not lower the value. *)
Lemma tempo_values_checked :
  all_below 5 (fun q =>
    all_below 48 (fun e =>
      forallb (fun p =>
                 let k := Formulas.hundredths (tempo_core q e (fst p)) in
                 Qle_bool (Qabs (inject_Z k / 100 - Formulas.tempo_on q e (snd p)))
                          (1 # 200)
                 && (16 <=? k)%Z && (k <=? 80)%Z
                 && fleb (round2 (tempo_core q e (fst p)))
                         (round2 (tempo_core (S q) e (fst p))))
              Formulas.tempo_factor_pairs)) = true.
Proof. vm_compute. reflexivity. Qed.

(** The same for the simplified copy: the value is the float of its
    formula, between 0.24 and 0.80, and one more question mark does not
    lower it. *)
Lemma simplified_tempo_values_checked :
  all_below 5 (fun q =>
    forallb (fun p =>
               let s := round2 (tempo_core_simplified q (fst p)) in
               Q_eqb s (RNE (Formulas.tempo_simplified_on q (snd p)))
               && fleb (lit 24 100) s && fleb s (lit 8 10)
               && fleb s (round2 (tempo_core_simplified (S q) (fst p))))
            Formulas.tempo_factor_pairs) = true.
Proof. vm_compute. reflexivity. Qed.

Lemma round2_hundredths x :
  round2 x = RNE (inject_Z (Formulas.hundredths x) / 100).
Proof. reflexivity. Qed.

Lemma tempo_on_saturates q e tfs :
  (4 <= q)%nat -> Formulas.tempo_on q e tfs == Formulas.tempo_on 4 e tfs.
Proof.
  intros H. unfold Formulas.tempo_on.
  rewrite (question_cap q H), (question_cap 4%nat) by lia. reflexivity.
Qed.

Lemma tempo_simplified_on_saturates q tfs :
  (4 <= q)%nat ->
  Formulas.tempo_simplified_on q tfs = Formulas.tempo_simplified_on 4 tfs.
Proof.
  intros H. unfold Formulas.tempo_simplified_on, Spec.two_decimals.
  do 2 f_equal. apply round_half_even_comp.
  rewrite (question_cap q H), (question_cap 4%nat) by lia. reflexivity.
Qed.

Lemma tempo_core_saturates q e tf :
  (4 <= q)%nat ->
  tempo_core q e tf = tempo_core 4 e tf
  /\ tempo_core_simplified q tf = tempo_core_simplified 4 tf.
Proof.
  intros H. unfold tempo_core, tempo_core_simplified.
  rewrite (capped_factor_saturates q H), (capped_factor_saturates 4%nat) by lia.
  split; reflexivity.
Qed.

Lemma tempo_values q e tf tfs :
  In (tf, tfs) Formulas.tempo_factor_pairs -> (e <= 47)%nat ->
  Qabs (inject_Z (Formulas.hundredths (tempo_core q e tf)) / 100
        - Formulas.tempo_on q e tfs) <= 1 # 200
  /\ (16 <= Formulas.hundredths (tempo_core q e tf) <= 80)%Z
  /\ round2 (tempo_core q e tf) <= round2 (tempo_core (S q) e tf).
Proof.
  intros Hin He.
  assert (He' : (e < 48)%nat) by lia.
  assert (Hb : forall q', (q' < 5)%nat ->
    Qabs (inject_Z (Formulas.hundredths (tempo_core q' e tf)) / 100
          - Formulas.tempo_on q' e tfs) <= 1 # 200
    /\ (16 <= Formulas.hundredths (tempo_core q' e tf) <= 80)%Z
    /\ round2 (tempo_core q' e tf) <= round2 (tempo_core (S q') e tf)).
  { intros q' Hq'.
    pose proof (all_below_spec _ _ e
                  (all_below_spec _ _ q' tempo_values_checked Hq') He') as H.
    cbv beta in H. rewrite forallb_forall in H. specialize (H _ Hin).
    apply tempo_facts. exact H. }
  destruct (Nat.lt_ge_cases q 4) as [Hlt | Hge].
  - apply Hb. lia.
  - assert (H4 : (4 < 5)%nat) by lia.
    destruct (Hb 4%nat H4) as (A & B & _).
    destruct (tempo_core_saturates q e tf Hge) as [S1 _].
    destruct (tempo_core_saturates (S q) e tf ltac:(lia)) as [S3 _].
    rewrite S1, S3, (tempo_on_saturates q e tfs Hge).
    repeat split; try assumption; try apply B. apply Qle_refl.
Qed.

Lemma simplified_tempo_values q tf tfs :
  In (tf, tfs) Formulas.tempo_factor_pairs ->
  round2 (tempo_core_simplified q tf) = RNE (Formulas.tempo_simplified_on q tfs)
  /\ lit 24 100 <= round2 (tempo_core_simplified q tf)
  /\ round2 (tempo_core_simplified q tf) <= lit 8 10
  /\ round2 (tempo_core_simplified q tf) <= round2 (tempo_core_simplified (S q) tf).
Proof.
  intros Hin.
  assert (Hb : forall q', (q' < 5)%nat ->
    round2 (tempo_core_simplified q' tf) = RNE (Formulas.tempo_simplified_on q' tfs)
    /\ lit 24 100 <= round2 (tempo_core_simplified q' tf)
    /\ round2 (tempo_core_simplified q' tf) <= lit 8 10
    /\ round2 (tempo_core_simplified q' tf)
       <= round2 (tempo_core_simplified (S q') tf)).
  { intros q' Hq'.
    pose proof (all_below_spec _ _ q' simplified_tempo_values_checked Hq') as H.
    cbv beta in H. rewrite forallb_forall in H. specialize (H _ Hin).
    apply simplified_tempo_facts. exact H. }
  destruct (Nat.lt_ge_cases q 4) as [Hlt | Hge].
  - apply Hb. lia.
  - assert (H4 : (4 < 5)%nat) by lia.
    destruct (Hb 4%nat H4) as (A & B & C & _).
    destruct (tempo_core_saturates q 0 tf Hge) as [_ S2].
    destruct (tempo_core_saturates (S q) 0 tf ltac:(lia)) as [_ S4].
    rewrite S2, S4, (tempo_simplified_on_saturates q tfs Hge).
    repeat split; try assumption. apply Qle_refl.
Qed.

(** X7: in the simplified copy the tempo is the float of the decimal
    [0.4 * min(0.8, 0.2 * question marks) + 0.6 * type weight] rounded to two
    places, and lies between 0.24 and 0.80. *)
Theorem simplified_tempo_formula content memory_type history :
  let r := memory_scorer.MemoryScorer.score_memory content memory_type history in
  tempo r = RNE (Formulas.tempo_simplified (lower content) memory_type)
  /\ lit 24 100 <= tempo r /\ tempo r <= lit 8 10.
Proof.
  intros r. subst r.
  unfold memory_scorer.MemoryScorer.score_memory. cbn [tempo].
  rewrite simplified_tempo_closed.
  destruct (simplified_tempo_values (count_char "?"%char (lower content)) _ _
              (tempo_factor_pair memory_type)) as (D & E & F & _).
  split; [exact D | split; assumption].
Qed.

(** X8: in [loopchamber_app.py] the tempo is a two-place decimal between
    0.16 and 0.80 within 0.005 of
    [0.3 * min(0.8, 0.2 * question marks)
     + 0.3 * min(0.8, 0.05 * emotional words) + 0.4 * type weight],
    where the emotional words are those of the positive, negative and
    complex lexicons: words of the neutral lexicon do not count. *)
Theorem tempo_near_formula content memory_type history :
  exists k : Z,
    tempo (MemoryScorer.score_memory content memory_type history)
    = RNE (inject_Z k / 100)
    /\ (16 <= k <= 80)%Z
    /\ Qabs (inject_Z k / 100 - Formulas.tempo (lower content) memory_type)
       <= 1 # 200.
Proof.
  unfold MemoryScorer.score_memory. cbn [tempo].
  rewrite tempo_closed, emotional_words_closed, round2_hundredths.
  set (text := lower content).
  exists (Formulas.hundredths
            (tempo_core (count_char "?"%char text) (Formulas.emotional_words text)
               (dict_get tempo_type_weights (lower memory_type) (lit 5 10)))).
  destruct (tempo_values (count_char "?"%char text) (Formulas.emotional_words text)
              _ _ (tempo_factor_pair memory_type) (emotional_words_bound text))
    as (A & B & _).
  split; [reflexivity | split; [exact B | exact A]].
Qed.

End ScorerTempo.

Section QuestionMark.

Import PyStr PyFloat Lexicon Core.
Import loopchamber_app.
Local Open Scope Q_scope.

Lemma lower_append a b : lower (a ++ b) = (lower a ++ lower b)%string.
Proof. induction a as [|c a IH]; simpl; [reflexivity | now rewrite IH]. Qed.

Lemma count_char_append c a b :
  count_char c (a ++ b) = (count_char c a + count_char c b)%nat.
Proof. induction a as [|d a IH]; simpl; [reflexivity | rewrite IH; lia]. Qed.

(** A word without the character [c] is a prefix of [s ++ c] only if it is
    a prefix of [s]. *)
Lemma prefix_append_char c w s :
  count_char c w = 0%nat ->
  prefix w (s ++ String c "") = prefix w s.
Proof.
  revert s. induction w as [|a w IH]; intros s Hw.
  - destruct s; reflexivity.
  - simpl in Hw. apply Nat.eq_add_0 in Hw as [Ha Hw].
    destruct s as [|b s]; simpl.
    + destruct (ascii_dec a c) as [E | NE]; [|reflexivity].
      subst a. rewrite Ascii.eqb_refl in Ha. discriminate.
    + destruct (ascii_dec a b); [apply IH, Hw | reflexivity].
Qed.

Lemma contains_append_char c w s :
  count_char c w = 0%nat -> w <> "" ->
  contains w (s ++ String c "") = contains w s.
Proof.
  intros Hw Hne. induction s as [|b s IH].
  - simpl. destruct w as [|a w]; [contradiction|].
    simpl in Hw. apply Nat.eq_add_0 in Hw as [Ha _].
    simpl. destruct (ascii_dec a c) as [E | NE].
    + subst a. rewrite Ascii.eqb_refl in Ha. discriminate.
    + destruct w; reflexivity.
  - change (String b s ++ String c "")%string with (String b (s ++ String c "")).
    cbn [contains]. rewrite IH.
    change (String b (s ++ String c "")) with (String b s ++ String c "")%string.
    now rewrite prefix_append_char.
Qed.

(** No word of the lexicons contains a question mark. *)
Lemma lexicon_words_have_no_question_mark :
  forallb (fun entry =>
             forallb (fun w => (count_char "?" w =? 0)%nat && negb (String.eqb w ""))
                     (snd entry))
          emotional_lexicons = true.
Proof. reflexivity. Qed.

Lemma count_found_append_question category text :
  count_found (dict_get emotional_lexicons category []) (text ++ "?")
  = count_found (dict_get emotional_lexicons category []) text.
Proof.
  rewrite !count_found_filter. f_equal. apply filter_ext_in.
  intros w Hw.
  assert (H : (count_char "?" w =? 0)%nat && negb (String.eqb w "") = true).
  { pose proof lexicon_words_have_no_question_mark as L.
    rewrite forallb_forall in L.
    unfold emotional_lexicons, dict_get in Hw.
    destruct (String.eqb category "positive");
      [exact (proj1 (forallb_forall _ _) (L _ (or_introl eq_refl)) w Hw)|].
    destruct (String.eqb category "negative");
      [exact (proj1 (forallb_forall _ _)
                (L _ (or_intror (or_introl eq_refl))) w Hw)|].
    destruct (String.eqb category "neutral");
      [exact (proj1 (forallb_forall _ _)
                (L _ (or_intror (or_intror (or_introl eq_refl)))) w Hw)|].
    destruct (String.eqb category "complex");
      [exact (proj1 (forallb_forall _ _)
                (L _ (or_intror (or_intror (or_intror (or_introl eq_refl))))) w Hw)|].
    destruct Hw. }
  apply andb_true_iff in H as [H1 H2].
  apply Nat.eqb_eq in H1. apply negb_true_iff, String.eqb_neq in H2.
  now apply contains_append_char.
Qed.

(** X9: adding a question mark at the end of a content never lowers its
    tempo, in either copy; from the fourth question mark on it does not
    change it. *)
Theorem question_mark_never_lowers_tempo content memory_type h1 h2 :
  let r := MemoryScorer.score_memory content memory_type h1 in
  let r1 := MemoryScorer.score_memory (content ++ "?") memory_type h2 in
  let s := memory_scorer.MemoryScorer.score_memory content memory_type h1 in
  let s1 := memory_scorer.MemoryScorer.score_memory (content ++ "?") memory_type h2 in
  tempo r <= tempo r1 /\ tempo s <= tempo s1
  /\ ((4 <= count_char "?" content)%nat -> tempo r1 = tempo r /\ tempo s1 = tempo s).
Proof.
  intros r r1 s s1. subst r r1 s s1.
  unfold MemoryScorer.score_memory, memory_scorer.MemoryScorer.score_memory.
  cbn [tempo]. rewrite !tempo_closed, !simplified_tempo_closed.
  rewrite lower_append. change (lower "?") with "?"%string.
  set (text := lower content).
  assert (Hq : count_char "?" content = count_char "?" text).
  { subst text. clear. induction content as [|c s IH]; [reflexivity|].
    simpl. rewrite IH. f_equal.
    destruct c as [[] [] [] [] [] [] [] []]; reflexivity. }
  rewrite Hq. rewrite count_char_append.
  change (count_char "?" "?") with 1%nat. rewrite Nat.add_1_r.
  cbn [fold_left]. rewrite !count_found_append_question.
  set (e := (0 + count_found (dict_get emotional_lexicons "positive" []) text
             + count_found (dict_get emotional_lexicons "negative" []) text
             + count_found (dict_get emotional_lexicons "complex" []) text)%nat).
  assert (He : (e <= 47)%nat) by (subst e; apply (emotional_words_le text)).
  set (q := count_char "?" text).
  set (tf := dict_get tempo_type_weights (lower memory_type) (lit 5 10)).
  destruct (tempo_values q e tf _ (tempo_factor_pair memory_type) He)
    as (_ & _ & M).
  destruct (simplified_tempo_values q tf _ (tempo_factor_pair memory_type))
    as (_ & _ & _ & M').
  split; [exact M|]. split; [exact M'|].
  intros Hge.
  destruct (tempo_core_saturates q e tf Hge) as [S1 S2].
  destruct (tempo_core_saturates (S q) e tf ltac:(lia)) as [S3 S4].
  rewrite S1, S2, S3, S4. split; reflexivity.
Qed.

End QuestionMark.

Section Copies.

Import PyStr PyFloat Lexicon Core.
Import loopchamber_app.
Local Open Scope Q_scope.

Lemma question_mark_never_lowers_tempo_witness :
  tempo (MemoryScorer.score_memory ("why????" ++ "?") "question" None)
  = tempo (MemoryScorer.score_memory "why????" "question" None).
Proof.
  apply (question_mark_never_lowers_tempo "why????" "question" None None).
  vm_compute. lia.
Defined.

(** X10: the two copies return the same pitch; the same dissonance when
    none of the last five history entries shares a token with the text (in
    particular without history); and the same emotion when the mixed-signal
    condition does not hold. *)
Theorem copies_agree content memory_type history :
  let r := MemoryScorer.score_memory content memory_type history in
  let r' := memory_scorer.MemoryScorer.score_memory content memory_type history in
  pitch r = pitch r'
  /\ (Spec.sharing_entries (lower content) history = 0%nat ->
      dissonance r = dissonance r')
  /\ (Spec.mixed_signalb (lower content) = false -> emotion r = emotion r').
Proof.
  intros r r'. subst r r'.
  unfold MemoryScorer.score_memory, memory_scorer.MemoryScorer.score_memory.
  cbn [pitch dissonance emotion].
  split; [reflexivity|]. split.
  - intros E. rewrite dissonance_closed, simplified_dissonance_closed, E.
    assert (Z0 : (if (1 <=? Spec.signals_found (lower content))%nat
                  then 0%nat else 0%nat) = 0%nat)
      by (destruct (1 <=? Spec.signals_found (lower content))%nat; reflexivity).
    rewrite Z0.
    apply (dissonance_values (Spec.signals_found (lower content)) 0
             (signals_found_le _) ltac:(lia)).
  - intros E. rewrite app_emotion_closed, simplified_emotion_closed, E.
    reflexivity.
Qed.

Lemma copies_agree_witness :
  dissonance (MemoryScorer.score_memory "calm but tense" "event" (Some [Some "storm"]))
  = dissonance (memory_scorer.MemoryScorer.score_memory
                  "calm but tense" "event" (Some [Some "storm"])).
Proof.
  apply (copies_agree "calm but tense" "event" (Some [Some "storm"])).
  reflexivity.
Defined.

Lemma first_highest_cases p n u c :
  (Spec.first_highest p n u c = "positive"
   <-> (0 < p /\ n <= p /\ u <= p /\ c <= p)%nat)
  /\ (Spec.first_highest p n u c = "negative"
      <-> (p < n /\ u <= n /\ c <= n)%nat)
  /\ (Spec.first_highest p n u c = "neutral"
      <-> ((p = 0 /\ n = 0 /\ u = 0 /\ c = 0) \/ (p < u /\ n < u /\ c <= u))%nat)
  /\ (Spec.first_highest p n u c = "complex"
      <-> (p < c /\ n < c /\ u < c)%nat).
Proof.
  unfold Spec.first_highest.
  repeat split_eqb; (split; [|split; [|split]]); (split; intros Hyp);
    try discriminate Hyp; try reflexivity; try lia.
Qed.

(** X11: what each label of the simplified scorer says about the counts:
    "positive" when the positive count is non-zero and no other count is
    higher; "negative" when the negative count exceeds the positive one and
    no other is higher; "complex" only when the complex count is strictly
    the highest; "neutral" when every count is zero or the neutral count
    exceeds the positive and negative ones and is not below the complex one.
    In [loopchamber_app.py] "complex" is returned exactly when the
    mixed-signal condition holds or the complex count is strictly the
    highest. *)
Theorem emotion_label_meaning content memory_type history :
  let text := lower content in
  let p := Spec.count_of "positive" text in
  let n := Spec.count_of "negative" text in
  let u := Spec.count_of "neutral" text in
  let c := Spec.count_of "complex" text in
  let e' := emotion (memory_scorer.MemoryScorer.score_memory content memory_type history) in
  let e := emotion (MemoryScorer.score_memory content memory_type history) in
  (e' = "positive" <-> (0 < p /\ n <= p /\ u <= p /\ c <= p)%nat)
  /\ (e' = "negative" <-> (p < n /\ u <= n /\ c <= n)%nat)
  /\ (e' = "neutral"
      <-> ((p = 0 /\ n = 0 /\ u = 0 /\ c = 0) \/ (p < u /\ n < u /\ c <= u))%nat)
  /\ (e' = "complex" <-> (p < c /\ n < c /\ u < c)%nat)
  /\ (e = "complex" <-> Spec.mixed_signal text \/ (p < c /\ n < c /\ u < c)%nat).
Proof.
  intros text p n u c e' e. subst e' e.
  unfold MemoryScorer.score_memory, memory_scorer.MemoryScorer.score_memory.
  cbn [emotion]. fold text.
  rewrite app_emotion_closed, simplified_emotion_closed.
  unfold Spec.first_highest_of. fold p n u c.
  destruct (first_highest_cases p n u c) as (A & B & C & D).
  split; [exact A|]. split; [exact B|]. split; [exact C|]. split; [exact D|].
  rewrite mixed_signal_iff.
  destruct (Spec.mixed_signalb text).
  - split; auto.
  - rewrite D. split; [auto | intros [F | ?]; [discriminate | assumption]].
Qed.

End Copies.

(* ================================================================== *)
(** ** Stores built by a sequence of calls *)
(* ================================================================== *)

Section StoreRuns.

Import PyStr PyFloat Lexicon.
Import loopchamber_app.
Import Sessions.

Lemma NoDup_map_iff {A B C} (f : A -> B) (g : A -> C) (l : list A) :
  (forall x y, f x = f y <-> g x = g y) ->
  NoDup (map f l) <-> NoDup (map g l).
Proof.
  intros H. induction l as [|a l IH]; simpl.
  - split; constructor.
  - assert (Hin : In (f a) (map f l) <-> In (g a) (map g l)).
    { rewrite !in_map_iff. split; intros (x & E & Hx); exists x;
        (split; [apply H; exact E | exact Hx]). }
    split; intros N; inversion N; subst; constructor; tauto.
Qed.

(** X12: in a store built from the empty one by calls of [add_memory], the
    ids are pairwise distinct exactly when no two calls read the same clock
    second and drew the same suffix. *)
Theorem ids_distinct_iff_draws_distinct (cs : list MemoryStore.call) :
  NoDup (map MemoryStore.id
             (MemoryStore.get_all_memories
                (MemoryStore.do_calls MemoryStore.init cs)))
  <-> NoDup (map (fun c => (MemoryStore.time_time (MemoryStore.call_env c),
                            MemoryStore.randint_1000_9999 (MemoryStore.call_env c)))
                 cs).
Proof.
  rewrite do_calls_memories. simpl. rewrite map_map.
  apply NoDup_map_iff. intros x y. unfold MemoryStore.record_of.
  cbn [MemoryStore.id]. rewrite make_id_eq_iff.
  split; [intros [-> ->]; reflexivity | intros [= -> ->]; auto].
Qed.

Lemma submit_memories st s :
  MemoryStore.memories (submit st s)
  = (MemoryStore.memories st
     ++ [ let r := MemoryScorer.score_memory (sub_content s) (sub_type s)
                     (Some (history_of (MemoryStore.memories st))) in
          {| MemoryStore.id := MemoryStore.make_id (sub_env s);
             MemoryStore.content := sub_content s;
             MemoryStore.type := sub_type s;
             MemoryStore.created_at := MemoryStore.now_isoformat (sub_env s);
             MemoryStore.attributes :=
               {| MemoryStore.pitch := pitch r;
                  MemoryStore.dissonance := dissonance r;
                  MemoryStore.tempo := tempo r;
                  MemoryStore.emotion := emotion r |} |} ])%list.
Proof. reflexivity. Qed.

Lemma scored_record_well_scored i c t ts content memory_type history :
  let r := MemoryScorer.score_memory content memory_type history in
  well_scored
    {| MemoryStore.id := i; MemoryStore.content := c; MemoryStore.type := t;
       MemoryStore.created_at := ts;
       MemoryStore.attributes :=
         {| MemoryStore.pitch := pitch r;
            MemoryStore.dissonance := dissonance r;
            MemoryStore.tempo := tempo r;
            MemoryStore.emotion := emotion r |} |}.
Proof.
  intros r. subst r. unfold well_scored.
  cbn [MemoryStore.attributes MemoryStore.pitch MemoryStore.dissonance
       MemoryStore.tempo MemoryStore.emotion].
  unfold MemoryScorer.score_memory. cbn [pitch dissonance tempo emotion].
  destruct (app_ranges (lower content) memory_type history) as (HP & HD & HT).
  split; [exact HP|]. split; [exact HD|]. split; [exact HT|].
  rewrite app_emotion_closed.
  destruct (Spec.mixed_signalb (lower content)); [simpl; auto|].
  apply first_highest_label.
Qed.

(** X13: the helper [add_memory(content, memory_type)] keeps the attribute
    ranges of the store: if every stored record has pitch and tempo in
    [0, 1], dissonance between 0.1 and 0.9 and one of the four emotion
    labels, so has every record after any sequence of submissions; the
    contents are stored as typed, in order, after the ones already there;
    and each new record carries the scores of its content against the
    contents stored before it. *)
Theorem submissions_keep_ranges st (l : list submission) :
  Forall well_scored (MemoryStore.memories st) ->
  Forall well_scored (MemoryStore.memories (submit_all st l))
  /\ map MemoryStore.content (MemoryStore.memories (submit_all st l))
     = (map MemoryStore.content (MemoryStore.memories st)
        ++ map sub_content l)%list
  /\ forall s,
       let r := MemoryScorer.score_memory (sub_content s) (sub_type s)
                  (Some (map Some (map MemoryStore.content
                                        (MemoryStore.memories (submit_all st l))))) in
       map MemoryStore.attributes
           (MemoryStore.memories (submit (submit_all st l) s))
       = (map MemoryStore.attributes (MemoryStore.memories (submit_all st l))
          ++ [ {| MemoryStore.pitch := pitch r;
                  MemoryStore.dissonance := dissonance r;
                  MemoryStore.tempo := tempo r;
                  MemoryStore.emotion := emotion r |} ])%list.
Proof.
  intros H. split; [|split].
  - revert st H. induction l as [|s l IH]; intros st H; [exact H|].
    simpl. apply IH. rewrite submit_memories.
    apply Forall_app. split; [exact H|]. constructor; [|constructor].
    apply scored_record_well_scored.
  - clear H. revert st. induction l as [|s l IH]; intros st.
    + simpl. now rewrite app_nil_r.
    + simpl. rewrite IH, submit_memories, map_app. simpl.
      now rewrite <- app_assoc.
  - intros s r. rewrite submit_memories, map_app. simpl. subst r.
    unfold history_of. now rewrite map_map.
Qed.

Lemma submissions_keep_ranges_witness :
  Forall well_scored
    (MemoryStore.memories
       (submit_all MemoryStore.init
          [ {| sub_env := {| MemoryStore.time_time := 1700000000;
                             MemoryStore.randint_1000_9999 := 1234;
                             MemoryStore.now_isoformat := "2023-11-14T22:13:20" |};
               sub_content := "I love jazz"; sub_type := "insight" |};
            {| sub_env := {| MemoryStore.time_time := 1700000060;
                             MemoryStore.randint_1000_9999 := 5678;
                             MemoryStore.now_isoformat := "2023-11-14T22:14:20" |};
               sub_content := "but jazz is loud?"; sub_type := "question" |} ])).
Proof.
  apply submissions_keep_ranges. constructor.
Defined.

End StoreRuns.

(* ================================================================== *)
(** ** The list logic of the application script *)
(* ================================================================== *)

Section Labels.

Import memory_store.

Lemma substring_all n s : (String.length s <= n)%nat -> substring 0 n s = s.
Proof.
  revert n. induction s as [|c s IH]; intros n H.
  - destruct n; reflexivity.
  - destruct n as [|n]; simpl in *; [lia|]. f_equal. apply IH. lia.
Qed.

Lemma substring_length n s :
  String.length (substring 0 n s) = Nat.min n (String.length s).
Proof.
  revert n. induction s as [|c s IH]; intros n.
  - destruct n; reflexivity.
  - destruct n as [|n]; simpl; [reflexivity|]. now rewrite IH.
Qed.

Lemma substring_prefix n s : prefix (substring 0 n s) s = true.
Proof.
  revert n. induction s as [|c s IH]; intros n.
  - destruct n; reflexivity.
  - destruct n as [|n]; simpl; [reflexivity|].
    destruct (ascii_dec c c); [apply IH | congruence].
Qed.

Lemma prefix_append a b : prefix a (a ++ b) = true.
Proof.
  induction a as [|c a IH]; simpl; [destruct b; reflexivity|].
  destruct (ascii_dec c c); [exact IH | congruence].
Qed.

(** X14: the label of a point of the chart is the content itself when it
    has at most 50 characters; otherwise it is the first 50 characters of
    the content followed by "...", 53 characters in all. *)
Theorem label_truncates content :
  ((String.length content <= 50)%nat -> label content = content)
  /\ ((50 < String.length content)%nat ->
      label content = substring 0 50 content ++ "..."
      /\ String.length (label content) = 53%nat
      /\ prefix (substring 0 50 content) content = true)
  /\ (String.length (label content) <= 53)%nat
  /\ prefix (substring 0 50 content) (label content) = true.
Proof.
  unfold label.
  destruct (Nat.ltb_spec 50 (String.length content)) as [Hlt | Hge].
  - assert (L : String.length (substring 0 50 content ++ "...") = 53%nat).
    { rewrite string_length_append, substring_length.
      rewrite Nat.min_l by lia. reflexivity. }
    split; [lia|]. split; [|split].
    + intros _. split; [reflexivity|]. split; [exact L | apply substring_prefix].
    + lia.
    + apply prefix_append.
  - split; [intros _; now apply substring_all|]. split; [lia|].
    rewrite substring_all by exact Hge. split; [lia|].
    rewrite <- (substring_all (String.length content) content) at 1 by lia.
    apply substring_prefix.
Qed.

Lemma label_truncates_witness :
  label "a short note" = "a short note".
Proof.
  apply (label_truncates "a short note"). vm_compute. lia.
Defined.

End Labels.

Section Sorting.

Import PyFloat.
Import memory_store.
Local Open Scope Q_scope.

Context {A : Type} (key : A -> float).

Lemma in_skipn n (l : list A) b : In b (skipn n l) -> In b l.
Proof.
  intros H. rewrite <- (firstn_skipn n l). apply in_or_app. now right.
Qed.

Lemma insert_desc_perm x l : Permutation (x :: l) (insert_desc key x l).
Proof.
  induction l as [|y r IH]; simpl; [reflexivity|].
  destruct (fltb (key x) (key y)); [|reflexivity].
  rewrite perm_swap. now apply perm_skip.
Qed.

Lemma sorted_desc_perm l : Permutation l (sorted_desc key l).
Proof.
  induction l as [|x l IH]; simpl; [reflexivity|].
  rewrite <- insert_desc_perm. now apply perm_skip.
Qed.

Lemma fltb_spec x y : if fltb x y then x < y else y <= x.
Proof.
  unfold fltb. destruct (Qle_bool y x) eqn:E; simpl.
  - now apply Qle_bool_iff.
  - apply Qnot_le_lt. intros H. apply Qle_bool_iff in H. congruence.
Qed.

Lemma insert_desc_sorted x l :
  StronglySorted (descending key) l -> StronglySorted (descending key) (insert_desc key x l).
Proof.
  induction 1 as [|y r Hs IH Hall]; simpl.
  - constructor; constructor.
  - pose proof (fltb_spec (key x) (key y)) as C.
    destruct (fltb (key x) (key y)).
    + constructor; [exact IH|].
      apply (Permutation_Forall (insert_desc_perm x r)).
      constructor; [unfold descending; lra | exact Hall].
    + constructor; [constructor; assumption|].
      constructor; [exact C|].
      apply Forall_impl with (P := descending key y); [|exact Hall].
      unfold descending. intros a Ha. lra.
Qed.

Lemma sorted_desc_sorted l : StronglySorted (descending key) (sorted_desc key l).
Proof.
  induction l as [|x l IH]; simpl; [constructor|].
  now apply insert_desc_sorted.
Qed.

Lemma sorted_split (l : list A) n :
  StronglySorted (descending key) l ->
  forall a b, In a (firstn n l) -> In b (skipn n l) -> key b <= key a.
Proof.
  intros H. revert n. induction H as [|y r Hs IH Hall]; intros n a b Ha Hb.
  - destruct n; destruct Ha.
  - destruct n as [|n]; [destruct Ha|]. simpl in Ha, Hb.
    destruct Ha as [<- | Ha].
    + rewrite Forall_forall in Hall. apply Hall.
      apply (in_skipn n). exact Hb.
    + now apply (IH n).
Qed.

(** The first [n] items of the sorted list are [n] items of greatest key. *)
Lemma top_of_sorted n (l : list A) :
  let top := firstn n (sorted_desc key l) in
  List.length top = Nat.min n (List.length l)
  /\ StronglySorted (descending key) top
  /\ exists rest,
       Permutation l (top ++ rest)
       /\ forall a b, In a top -> In b rest -> key b <= key a.
Proof.
  intros top. subst top. split; [|split].
  - rewrite length_firstn.
    now rewrite <- (Permutation_length (sorted_desc_perm l)).
  - pose proof (sorted_desc_sorted l) as H.
    rewrite <- (firstn_skipn n (sorted_desc key l)) in H.
    clear -H. induction (firstn n (sorted_desc key l)) as [|x t IH];
      [constructor|].
    simpl in H. inversion H as [|? ? Hs Hall]; subst.
    constructor; [now apply IH|].
    apply Forall_app in Hall. tauto.
  - exists (skipn n (sorted_desc key l)). split.
    + rewrite firstn_skipn. apply sorted_desc_perm.
    + apply sorted_split, sorted_desc_sorted.
Qed.

End Sorting.

Section TopLists.

Import PyFloat.
Import loopchamber_app.MemoryStore.
Import memory_store.
Local Open Scope Q_scope.

(** X15: "Top Dissonant Memories" shows five memories (all of them when
    there are fewer), in descending order of dissonance, and no memory left
    out has a higher dissonance than a memory shown. *)
Theorem dissonant_memories_are_the_top (memories : list memory) :
  let d := fun m => dissonance (attributes m) in
  let top := dissonant_memories memories in
  List.length top = Nat.min 5 (List.length memories)
  /\ StronglySorted (descending d) top
  /\ exists rest,
       Permutation memories (top ++ rest)
       /\ forall a b, In a top -> In b rest -> d b <= d a.
Proof. apply (top_of_sorted (fun m => dissonance (attributes m)) 5 memories). Qed.

(** Items with equal keys keep their order. *)
Lemma insert_desc_filter {A} (key : A -> float) (P : A -> bool) x l :
  (forall y, P x = true -> P y = true -> key y == key x) ->
  filter P (insert_desc key x l) = filter P (x :: l).
Proof.
  intros H. induction l as [|y r IH]; [reflexivity|].
  simpl insert_desc. pose proof (fltb_spec (key x) (key y)) as C.
  destruct (fltb (key x) (key y)); [|reflexivity].
  simpl. simpl in IH. rewrite IH.
  destruct (P x) eqn:Px; [|reflexivity].
  destruct (P y) eqn:Py; [|reflexivity].
  specialize (H y eq_refl Py). lra.
Qed.

Lemma sorted_desc_is_stable {A} (key : A -> float) (v : float) (l : list A) :
  filter (fun a => Qeq_bool (key a) v) (sorted_desc key l)
  = filter (fun a => Qeq_bool (key a) v) l.
Proof.
  induction l as [|x l IH]; [reflexivity|].
  simpl sorted_desc. rewrite insert_desc_filter.
  - simpl. now rewrite IH.
  - intros y Hx Hy. apply Qeq_bool_iff in Hx, Hy. now rewrite Hx, Hy.
Qed.

Lemma filter_firstn {A} (P : A -> bool) n (l : list A) :
  exists k, filter P (firstn n l) = firstn k (filter P l).
Proof.
  revert n. induction l as [|x l IH]; intros n.
  - exists 0%nat. now destruct n.
  - destruct n as [|n]; [exists 0%nat; reflexivity|].
    destruct (IH n) as [k Hk]. simpl. destruct (P x).
    + exists (S k). simpl. now rewrite Hk.
    + exists k. exact Hk.
Qed.

(** X16: ties are broken by the order of the store: among the memories
    with a given dissonance, the ones listed in "Top Dissonant Memories" are
    the earliest stored, in the order of the store. *)
Theorem dissonant_memories_ties_in_store_order (memories : list memory) (v : float) :
  exists k,
    filter (fun m => Qeq_bool (dissonance (attributes m)) v)
           (dissonant_memories memories)
    = firstn k (filter (fun m => Qeq_bool (dissonance (attributes m)) v) memories).
Proof.
  unfold dissonant_memories.
  destruct (filter_firstn (fun m => Qeq_bool (dissonance (attributes m)) v) 5
              (sorted_desc (fun m => dissonance (attributes m)) memories))
    as [k Hk].
  exists k. rewrite Hk. f_equal.
  apply (sorted_desc_is_stable (fun m => dissonance (attributes m))).
Qed.

(** X17: the chart labels at most three points, at distinct valid indices,
    and no other point has a higher tempo than a labelled one. *)
Theorem top_indices_are_the_top (tempo_values : list float) :
  let t := fun i => nth i tempo_values 0 in
  let top := top_indices tempo_values in
  List.length top = Nat.min 3 (List.length tempo_values)
  /\ NoDup top
  /\ (forall i, In i top -> (i < List.length tempo_values)%nat)
  /\ (forall i j, In i top -> (j < List.length tempo_values)%nat ->
                  ~ In j top -> t j <= t i).
Proof.
  intros t top.
  destruct (top_of_sorted t 3 (seq 0 (List.length tempo_values)))
    as (L & _ & rest & P & M).
  fold (top_indices tempo_values) in L, P, M. fold top in L, P, M.
  rewrite length_seq in L.
  assert (N : NoDup (top ++ rest))
    by (apply (Permutation_NoDup P), seq_NoDup).
  split; [exact L|]. split; [now apply NoDup_app_remove_r in N|]. split.
  - intros i Hi.
    assert (In i (seq 0 (List.length tempo_values)))
      by (apply (Permutation_in _ (Permutation_sym P)), in_or_app; now left).
    apply in_seq in H. lia.
  - intros i j Hi Hj Hn. apply M; [exact Hi|].
    assert (In j (top ++ rest))
      by (apply (Permutation_in _ P), in_seq; lia).
    apply in_app_or in H. tauto.
Qed.

End TopLists.

Section Filters.

Import loopchamber_app.MemoryStore.
Import memory_store.

Lemma selected_In selection x : selected selection x = true <-> In x selection.
Proof.
  unfold selected. rewrite existsb_exists. split.
  - intros (y & Hy & E). apply String.eqb_eq in E. now subst.
  - intros H. exists x. split; [exact H | apply String.eqb_refl].
Qed.

Lemma filter_all {A} (P : A -> bool) (l : list A) :
  (forall x, P x = true) -> filter P l = l.
Proof.
  intros H. induction l as [|x l IH]; simpl; [reflexivity|].
  now rewrite H, IH.
Qed.

Lemma filter_twice {A} (P Q : A -> bool) (l : list A) :
  filter Q (filter P l) = filter (fun x => P x && Q x) l.
Proof.
  induction l as [|x l IH]; simpl; [reflexivity|].
  destruct (P x); simpl; [destruct (Q x)|]; now rewrite IH.
Qed.

(** X18: "Browse Memories" shows, in the order of the store, exactly the
    memories whose type is among the selected types (every type when none
    is selected) and whose emotion is among the selected emotions (every
    emotion when none is selected). *)
Theorem apply_filters_selects filter_type filter_emotion memories :
  apply_filters filter_type filter_emotion memories
  = filter (fun m =>
              (match filter_type with [] => true | _ => selected filter_type (type m) end)
              && (match filter_emotion with
                  | [] => true
                  | _ => selected filter_emotion (emotion (attributes m))
                  end))
           memories
  /\ (forall m, In m (apply_filters filter_type filter_emotion memories)
                <-> In m memories
                    /\ (filter_type = [] \/ In (type m) filter_type)
                    /\ (filter_emotion = []
                        \/ In (emotion (attributes m)) filter_emotion))
  /\ apply_filters [] [] memories = memories.
Proof.
  assert (E : apply_filters filter_type filter_emotion memories
    = filter (fun m =>
              (match filter_type with [] => true | _ => selected filter_type (type m) end)
              && (match filter_emotion with
                  | [] => true
                  | _ => selected filter_emotion (emotion (attributes m))
                  end)) memories).
  { unfold apply_filters.
    destruct filter_type as [|t ft], filter_emotion as [|e fe].
    - symmetry. apply filter_all. reflexivity.
    - apply filter_ext. reflexivity.
    - apply filter_ext. intros m. now rewrite andb_true_r.
    - apply filter_twice. }
  split; [exact E|]. split; [|reflexivity].
  intros m. rewrite E, filter_In, andb_true_iff.
  destruct filter_type as [|t ft], filter_emotion as [|e fe];
    rewrite ?selected_In; intuition discriminate.
Qed.

End Filters.

Section Tally.

Import memory_store.

Lemma dict_lookup_set_same {V} (d : list (string * V)) k v :
  dict_lookup (dict_set d k v) k = Some v.
Proof.
  induction d as [|[k' v'] r IH]; simpl.
  - now rewrite String.eqb_refl.
  - destruct (String.eqb k k') eqn:E; simpl; rewrite E; [reflexivity | exact IH].
Qed.

Lemma dict_lookup_set_other {V} (d : list (string * V)) k v k0 :
  k0 <> k -> dict_lookup (dict_set d k v) k0 = dict_lookup d k0.
Proof.
  intros NE. induction d as [|[k' v'] r IH]; simpl.
  - apply String.eqb_neq in NE. now rewrite NE.
  - destruct (String.eqb k k') eqn:E; simpl.
    + apply String.eqb_eq in E. subst k'.
      apply String.eqb_neq in NE. now rewrite NE.
    + now rewrite IH.
Qed.

Lemma dict_lookup_keys {V} (d : list (string * V)) k :
  dict_lookup d k = None <-> ~ In k (map fst d).
Proof.
  induction d as [|[k' v'] r IH]; simpl; [tauto|].
  destruct (String.eqb_spec k k') as [-> | NE].
  - split; [discriminate | intros H; exfalso; apply H; now left].
  - rewrite IH. split; [intros H [E | F]; [congruence | tauto] | tauto].
Qed.

Lemma dict_set_keys {V} (d : list (string * V)) k v :
  map fst (dict_set d k v)
  = if in_dec string_dec k (map fst d) then map fst d
    else (map fst d ++ [k])%list.
Proof.
  induction d as [|[k' v'] r IH]; simpl; [reflexivity|].
  destruct (String.eqb_spec k k') as [-> | NE]; simpl.
  - destruct (string_dec k' k'); [reflexivity | congruence].
  - rewrite IH. destruct (string_dec k' k); [congruence|].
    destruct (in_dec string_dec k (map fst r)); reflexivity.
Qed.

Lemma dict_set_sum (d : list (string * nat)) k v :
  NoDup (map fst d) ->
  list_sum (map snd (dict_set d k v))
  = (list_sum (map snd d) + v
     - match dict_lookup d k with Some n => n | None => 0 end)%nat.
Proof.
  induction d as [|[k' v'] r IH]; intros N; simpl; [lia|].
  inversion N as [|? ? Hn N']; subst.
  destruct (String.eqb_spec k k') as [-> | NE]; simpl; [lia|].
  rewrite (IH N').
  assert (match dict_lookup r k with Some n => n | None => 0 end
          <= list_sum (map snd r))%nat.
  { clear. induction r as [|[k2 v2] r IH]; simpl; [lia|].
    destruct (String.eqb k k2); simpl; lia. }
  lia.
Qed.

Lemma count_emotions_snoc es e :
  count_emotions (es ++ [e])
  = dict_set (count_emotions es) e
      (match dict_lookup (count_emotions es) e with Some n => n | None => 0 end + 1)%nat.
Proof. unfold count_emotions. now rewrite fold_left_app. Qed.

(** X19: the emotion tally holds, for each emotion that occurs, the number
    of its occurrences (and no entry for the others); each emotion has one
    entry; the counts add up to the number of memories. *)
Theorem count_emotions_counts (emotions : list string) :
  (forall e,
     dict_lookup (count_emotions emotions) e
     = if in_dec string_dec e emotions
       then Some (count_occ string_dec emotions e) else None)
  /\ NoDup (map fst (count_emotions emotions))
  /\ list_sum (map snd (count_emotions emotions)) = List.length emotions.
Proof.
  induction emotions as [|x es IH] using rev_ind.
  - split; [reflexivity|]. split; [constructor | reflexivity].
  - destruct IH as (L & N & S).
    rewrite count_emotions_snoc. split; [|split].
    + intros e. rewrite count_occ_app. simpl.
      destruct (string_dec x e) as [-> | NE].
      * rewrite dict_lookup_set_same, L.
        destruct (in_dec string_dec e (es ++ [e])) as [_ | F].
        -- destruct (in_dec string_dec e es) as [I | NI].
           ++ f_equal; lia.
           ++ apply (count_occ_not_In string_dec) in NI. rewrite NI. reflexivity.
        -- exfalso. apply F, in_or_app. right. now left.
      * rewrite dict_lookup_set_other by congruence. rewrite L.
        destruct (in_dec string_dec e es) as [I | NI];
          destruct (in_dec string_dec e (es ++ [x])) as [I' | NI'].
        -- f_equal; lia.
        -- exfalso. apply NI', in_or_app. now left.
        -- exfalso. apply in_app_or in I'. destruct I' as [? | [? | []]];
             [tauto | congruence].
        -- reflexivity.
    + rewrite dict_set_keys.
      destruct (in_dec string_dec x (map fst (count_emotions es))) as [I | NI];
        [exact N|].
      apply NoDup_app; [exact N | constructor; [intros [] | constructor] |].
      intros a Ha [<- | []]. contradiction.
    + rewrite (dict_set_sum _ _ _ N), S, length_app. simpl. lia.
Qed.

End Tally.

Section Trends.

Import loopchamber_app.MemoryStore.
Import memory_store.

Lemma no_repeat_snoc l x y :
  no_repeat (l ++ [x]) -> x <> y -> no_repeat ((l ++ [x]) ++ [y]).
Proof.
  revert x y. induction l as [|a l IH]; intros x y H NE; simpl in *.
  - auto.
  - destruct l as [|b l]; simpl in *.
    + destruct H as [H1 _]. auto.
    + destruct H as [H1 H2]. split; [exact H1|]. apply (IH x y H2 NE).
Qed.

Lemma no_repeat_init l x : no_repeat (l ++ [x]) -> no_repeat l.
Proof.
  induction l as [|a l IH]; intros H; simpl in *; [exact I|].
  destruct l as [|b l]; simpl in *; [exact I|].
  destruct H as [H1 H2]. split; [exact H1 | apply IH, H2].
Qed.

(** [date_emotions[emotion] += 1] on a dict with the four labels. *)
Lemma bump (a b c d : nat) e :
  In e trend_labels ->
  exists n a' b' c' d',
    dict_lookup [("positive", a); ("negative", b); ("neutral", c); ("complex", d)] e
    = Some n
    /\ dict_set [("positive", a); ("negative", b); ("neutral", c); ("complex", d)]
                e (n + 1)%nat
       = [("positive", a'); ("negative", b'); ("neutral", c'); ("complex", d')]
    /\ (a' + b' + c' + d' = S (a + b + c + d))%nat.
Proof.
  intros [<- | [<- | [<- | [<- | []]]]]; simpl.
  - exists a, (a + 1)%nat, b, c, d. repeat split; lia.
  - exists b, a, (b + 1)%nat, c, d. repeat split; lia.
  - exists c, a, b, (c + 1)%nat, d. repeat split; lia.
  - exists d, a, b, c, (d + 1)%nat. repeat split; lia.
Qed.

Lemma bump_fails (a b c d : nat) e :
  ~ In e trend_labels ->
  dict_lookup [("positive", a); ("negative", b); ("neutral", c); ("complex", d)] e
  = None.
Proof.
  intros H. simpl in *.
  destruct (String.eqb_spec e "positive"); [subst; tauto|].
  destruct (String.eqb_spec e "negative"); [subst; tauto|].
  destruct (String.eqb_spec e "neutral"); [subst; tauto|].
  destruct (String.eqb_spec e "complex"); [subst; tauto|].
  reflexivity.
Qed.

Lemma length_snoc {A} (l : list A) x n :
  List.length l = n -> List.length (l ++ [x]) = S n.
Proof. intros <-. rewrite length_app. simpl. lia. Qed.

Lemma list_sum_snoc l x : list_sum (l ++ [x]) = (list_sum l + x)%nat.
Proof. rewrite list_sum_app. simpl. lia. Qed.

Lemma append_counts_four (l1 l2 l3 l4 : list nat) (a b c d : nat) :
  append_counts
    [("positive", l1); ("negative", l2); ("neutral", l3); ("complex", l4)]
    [("positive", a); ("negative", b); ("neutral", c); ("complex", d)]
  = Some [("positive", (l1 ++ [a])%list); ("negative", (l2 ++ [b])%list);
          ("neutral", (l3 ++ [c])%list); ("complex", (l4 ++ [d])%list)].
Proof. reflexivity. Qed.

Ltac trend_simpl :=
  cbn [dates emotion_series current_date date_emotions map].

(** One turn of the loop keeps the invariant, and fails exactly on an
    emotion that is not one of the four labels. *)
Lemma trend_step_inv t n m :
  trend_inv t n ->
  (In (emotion (attributes m)) trend_labels ->
   exists t', trend_step t m = Some t' /\ trend_inv t' (S n))
  /\ (~ In (emotion (attributes m)) trend_labels -> trend_step t m = None).
Proof.
  intros (l1 & l2 & l3 & l4 & a & b & c & d
          & Es & Ed & L1 & L2 & L3 & L4 & T & R & Z).
  unfold trend_step.
  set (date_str := substring 0 10 (created_at m)).
  set (e := emotion (attributes m)).
  destruct (same_date (current_date t) date_str) eqn:Same.
  - (* the date that is open *)
    rewrite Ed. split.
    + intros He. destruct (bump a b c d e He) as (k & a' & b' & c' & d' & Lk & Sk & Tk).
      rewrite Lk. eexists. split; [reflexivity|].
      exists l1, l2, l3, l4, a', b', c', d'. trend_simpl.
      repeat split; try assumption; try lia;
        match goal with
        | F : current_date t = None |- _ => rewrite F in Same; discriminate
        end.
    + intros He. now rewrite (bump_fails a b c d e He).
  - (* a new date *)
    unfold close_date. rewrite Es, Ed.
    destruct (current_date t) as [cur|] eqn:Cur.
    + rewrite append_counts_four. trend_simpl.
      assert (NE : cur <> date_str).
      { intros ->. simpl in Same. rewrite String.eqb_refl in Same. discriminate. }
      split.
      * intros He.
        destruct (bump 0 0 0 0 e He) as (k & a' & b' & c' & d' & Lk & Sk & Tk).
        rewrite Lk. eexists. split; [reflexivity|].
        exists (l1 ++ [a])%list, (l2 ++ [b])%list, (l3 ++ [c])%list,
               (l4 ++ [d])%list, a', b', c', d'. trend_simpl.
        rewrite !list_sum_snoc.
        repeat split;
          try (rewrite !length_app; simpl; lia); try lia; try discriminate.
        -- exact Sk.
        -- apply no_repeat_snoc; assumption.
      * intros He. now rewrite (bump_fails 0 0 0 0 e He).
    + trend_simpl. rewrite Es. trend_simpl.
      destruct (Z eq_refl) as [Zn Zd]. subst n.
      assert (a = 0 /\ b = 0 /\ c = 0 /\ d = 0)%nat as (-> & -> & -> & ->) by lia.
      split.
      * intros He.
        destruct (bump 0 0 0 0 e He) as (k & a' & b' & c' & d' & Lk & Sk & Tk).
        rewrite Lk. eexists. split; [reflexivity|].
        exists l1, l2, l3, l4, a', b', c', d'. trend_simpl.
        repeat split; try assumption; try lia; try discriminate.
        rewrite Zd. exact I.
      * intros He. now rewrite (bump_fails 0 0 0 0 e He).
Qed.

Lemma initial_trend_inv : trend_inv initial_trend 0.
Proof.
  exists [], [], [], [], 0%nat, 0%nat, 0%nat, 0%nat. cbn.
  repeat split; reflexivity.
Qed.

Lemma trend_loop_inv ms : forall t n,
  trend_inv t n ->
  (Forall (fun m => In (emotion (attributes m)) trend_labels) ms ->
   exists t', trend_loop t ms = Some t' /\ trend_inv t' (n + List.length ms))
  /\ (Exists (fun m => ~ In (emotion (attributes m)) trend_labels) ms ->
      trend_loop t ms = None).
Proof.
  induction ms as [|m ms IH]; intros t n Inv.
  - split.
    + intros _. exists t. split; [reflexivity|]. now rewrite Nat.add_0_r.
    + intros H. inversion H.
  - destruct (trend_step_inv t n m Inv) as [Ok Ko]. split.
    + intros H. inversion H as [|? ? Hm Hms]; subst.
      destruct (Ok Hm) as (t1 & E1 & Inv1).
      destruct (IH t1 (S n) Inv1) as [Ok' _].
      destruct (Ok' Hms) as (t' & E' & Inv').
      exists t'. simpl. rewrite E1. split; [exact E'|].
      now replace (n + S (List.length ms))%nat with (S n + List.length ms)%nat by lia.
    + intros H. simpl.
      destruct (in_dec string_dec (emotion (attributes m)) trend_labels) as [Hm | Hm].
      * destruct (Ok Hm) as (t1 & E1 & Inv1). rewrite E1.
        inversion H as [? ? F | ? ? F]; subst; [contradiction|].
        now apply (IH t1 (S n) Inv1).
      * now rewrite (Ko Hm).
Qed.

Lemma series_total_four (l1 l2 l3 l4 : list nat) :
  series_total
    [("positive", l1); ("negative", l2); ("neutral", l3); ("complex", l4)]
  = (list_sum l1 + list_sum l2 + list_sum l3 + list_sum l4)%nat.
Proof. unfold series_total. simpl. lia. Qed.

(** X20: "Emotional Trends".  When every memory has one of the four emotion
    labels, the loop produces the dates and, for each of the four labels in
    the fixed order, one count per date; the counts add up to the number of
    memories; no two neighbouring dates are equal; and there is no date
    only when there is no memory.  When some memory has another emotion,
    the loop stops on a missing key. *)
Theorem emotion_trends_counts (ms : list memory) :
  (Forall (fun m => In (emotion (attributes m)) trend_labels) ms ->
   exists ds series,
     emotion_trends ms = Some (ds, series)
     /\ map fst series = trend_labels
     /\ Forall (fun s => List.length (snd s) = List.length ds) series
     /\ series_total series = List.length ms
     /\ no_repeat ds
     /\ (ds = [] <-> ms = []))
  /\ (Exists (fun m => ~ In (emotion (attributes m)) trend_labels) ms ->
      emotion_trends ms = None).
Proof.
  destruct (trend_loop_inv ms initial_trend 0 initial_trend_inv) as [Ok Ko].
  unfold emotion_trends. split.
  - intros H. destruct (Ok H) as (t & E & Inv). rewrite E. clear Ok Ko.
    destruct Inv as (l1 & l2 & l3 & l4 & a & b & c & d
                     & Es & Ed & L1 & L2 & L3 & L4 & T & R & Z).
    unfold close_date. rewrite Es, Ed.
    destruct (current_date t) as [cur|] eqn:Cur.
    + rewrite append_counts_four. trend_simpl.
      eexists _, _. split; [reflexivity|].
      split; [reflexivity|]. split; [|split; [|split]].
      * repeat constructor; cbn [snd]; rewrite !length_app; simpl; lia.
      * rewrite series_total_four, !list_sum_snoc. simpl in T. lia.
      * exact R.
      * split; [intros F; destruct (dates t); discriminate|].
        intros ->. simpl in E. injection E as <-. discriminate Cur.
    + destruct (Z eq_refl) as [Zn Zd]. rewrite Es.
      eexists _, _. split; [reflexivity|].
      split; [reflexivity|]. split; [|split; [|split]].
      * rewrite Zd in *. repeat constructor; cbn [snd]; assumption.
      * rewrite series_total_four. simpl in Zn. lia.
      * rewrite Zd. exact I.
      * split; [intros _|intros _; exact Zd].
        destruct ms; [reflexivity | simpl in Zn; discriminate].
  - intros H. now rewrite (Ko H).
Qed.

Lemma emotion_trends_counts_witness :
  emotion_trends
    [ {| id := "mem_1_1000"; content := "x"; type := "event";
         created_at := "2024-05-01T10:00:00";
         attributes := {| pitch := 1 # 2; dissonance := 1 # 10;
                          tempo := 1 # 5; emotion := "tense" |} |} ]
  = None.
Proof.
  apply (emotion_trends_counts _).
  constructor. simpl. intros [H | [H | [H | [H | []]]]]; discriminate.
Defined.

End Trends.

(* ================================================================== *)
(** ** Blank contents *)
(* ================================================================== *)

Section Blank.

Import PyStr PyFloat Lexicon Core Texts.
Import loopchamber_app.

Lemma isspace_lower_char c : isspace (lower_char c) = isspace c.
Proof. destruct c as [[] [] [] [] [] [] [] []]; reflexivity. Qed.

Lemma blank_lower s : blank (lower s) = blank s.
Proof.
  induction s as [|c s IH]; simpl; [reflexivity|].
  now rewrite isspace_lower_char, IH.
Qed.

Lemma blank_split_from s : blank s = true -> split_from "" s = [].
Proof.
  induction s as [|c s IH]; simpl; [reflexivity|].
  intros H. apply andb_true_iff in H as [Hc Hs]. rewrite Hc. simpl.
  apply IH, Hs.
Qed.

Lemma blank_prefix w s : prefix w s = true -> blank s = true -> blank w = true.
Proof.
  revert s. induction w as [|a w IH]; intros s Hp Hs; [reflexivity|].
  destruct s as [|b s]; simpl in Hp; [discriminate|].
  destruct (ascii_dec a b) as [-> | NE]; [|discriminate].
  simpl in *. apply andb_true_iff in Hs as [Hb Hs]. rewrite Hb. simpl.
  apply (IH s Hp Hs).
Qed.

Lemma blank_contains w s :
  blank s = true -> blank w = false -> contains w s = false.
Proof.
  intros Hs Hw. induction s as [|b s IH].
  - simpl. destruct w; [discriminate | reflexivity].
  - cbn [contains].
    destruct (prefix w (String b s)) eqn:P.
    + apply blank_prefix in P; [congruence | exact Hs].
    + simpl in Hs. apply andb_true_iff in Hs as [_ Hs]. simpl. apply IH, Hs.
Qed.

Lemma blank_count_char c s :
  blank s = true -> isspace c = false -> count_char c s = 0%nat.
Proof.
  intros Hs Hc. induction s as [|b s IH]; [reflexivity|].
  simpl in *. apply andb_true_iff in Hs as [Hb Hs]. rewrite (IH Hs).
  destruct (Ascii.eqb_spec c b); [congruence | reflexivity].
Qed.

(** No word of the lexicons and no contradiction signal is blank. *)
Lemma words_are_not_blank :
  forallb (fun entry => forallb (fun w => negb (blank w)) (snd entry))
          emotional_lexicons
  && forallb (fun w => negb (blank w)) contradiction_signals = true.
Proof. reflexivity. Qed.

Lemma blank_filter words text :
  blank text = true -> forallb (fun w => negb (blank w)) words = true ->
  filter (fun w => contains w text) words = [].
Proof.
  intros Ht Hw. induction words as [|w l IH]; [reflexivity|].
  simpl in *. apply andb_true_iff in Hw as [H1 H2].
  apply negb_true_iff in H1. rewrite (blank_contains w text Ht H1).
  apply IH, H2.
Qed.

Lemma blank_count_of category text :
  blank text = true -> Spec.count_of category text = 0%nat.
Proof.
  intros Ht. unfold Spec.count_of.
  pose proof words_are_not_blank as W. apply andb_true_iff in W as [W _].
  rewrite forallb_forall in W.
  rewrite blank_filter; [reflexivity | exact Ht |].
  unfold emotional_lexicons, dict_get.
  destruct (String.eqb category "positive");
    [exact (W _ (or_introl eq_refl))|].
  destruct (String.eqb category "negative");
    [exact (W _ (or_intror (or_introl eq_refl)))|].
  destruct (String.eqb category "neutral");
    [exact (W _ (or_intror (or_intror (or_introl eq_refl))))|].
  destruct (String.eqb category "complex");
    [exact (W _ (or_intror (or_intror (or_intror (or_introl eq_refl)))))|].
  reflexivity.
Qed.

(** X21: a content made only of white space is scored like the empty
    content, whatever the type and the histories: both copies return the
    scores of the empty string. *)
Theorem blank_content_scores_like_empty content memory_type h1 h2 :
  blank content = true ->
  MemoryScorer.score_memory content memory_type h1
  = MemoryScorer.score_memory "" memory_type h2
  /\ memory_scorer.MemoryScorer.score_memory content memory_type h1
     = memory_scorer.MemoryScorer.score_memory "" memory_type h2.
Proof.
  intros H. rewrite <- blank_lower in H.
  assert (Hw : split (lower content) = []) by (apply blank_split_from, H).
  assert (Hq : count_char "?" (lower content) = 0%nat)
    by (apply blank_count_char; [exact H | reflexivity]).
  assert (Hs : Spec.signals_found (lower content) = 0%nat).
  { unfold Spec.signals_found. rewrite blank_filter; [reflexivity | exact H|].
    pose proof words_are_not_blank as W. now apply andb_true_iff in W as [_ W]. }
  assert (Hp := blank_count_of "positive" _ H).
  assert (Hn := blank_count_of "negative" _ H).
  assert (Hu := blank_count_of "neutral" _ H).
  assert (Hc := blank_count_of "complex" _ H).
  assert (He : Formulas.emotional_words (lower content) = 0%nat)
    by (unfold Formulas.emotional_words; rewrite Hp, Hn, Hc; reflexivity).
  unfold MemoryScorer.score_memory, memory_scorer.MemoryScorer.score_memory.
  rewrite Hw.
  rewrite !dissonance_closed, !simplified_dissonance_closed.
  rewrite !tempo_closed, !simplified_tempo_closed, !emotional_words_closed.
  rewrite !app_emotion_closed, !simplified_emotion_closed.
  unfold Spec.mixed_signalb, Spec.first_highest_of.
  rewrite Hs, Hq, He, Hp, Hn, Hu, Hc.
  change (lower "") with "".
  change (Spec.signals_found "") with 0%nat.
  change (count_char "?" "") with 0%nat.
  change (Formulas.emotional_words "") with 0%nat.
  change (Spec.count_of "positive" "") with 0%nat.
  change (Spec.count_of "negative" "") with 0%nat.
  change (Spec.count_of "neutral" "") with 0%nat.
  change (Spec.count_of "complex" "") with 0%nat.
  cbn [Nat.leb]. split; reflexivity.
Qed.

Lemma blank_content_scores_like_empty_witness :
  MemoryScorer.score_memory "   " "event" None
  = MemoryScorer.score_memory "" "event" None.
Proof.
  apply (blank_content_scores_like_empty "   " "event" None None). reflexivity.
Defined.

End Blank.
